(** * strands-hub-mcp: the object-store access layer of [server.py]

    A shallow embedding of [src/strands_hub_mcp/server.py].  Every tool of
    the server is a program over four S3 calls ([head_object], [get_object],
    [put_object], [list_objects_v2]) and the wall clock.  Programs are trees
    of such calls; [run] executes a tree against the contents of the
    configured bucket and records the calls it made, [step] executes one call
    at a time so that several callers can be interleaved.

    Conventions.
    - A Python [str] is a Rocq [string] holding its UTF-8 encoding, so
      [str.encode("utf-8")] is the identity and [bytes.decode("utf-8")] is a
      validity check.  [startswith], [rstrip("/")], [lstrip("/")] and slicing
      off a matched prefix agree on code points and on UTF-8 bytes.
    - [json.loads], [json.dumps(_, indent=2)], the listing service
      [list_objects_v2] and the [strands_hub] collaborators are not code of
      this repository: they are the members of the class [Libraries].
    - Transport faults of the store are not modelled: [get_object] fails
      only on a missing key. *)

From Stdlib Require Import ZArith NArith String Ascii List Bool Lia DecimalString.
From Stdlib Require Import Sorted.
From stdpp Require Import base option list strings gmap.

Local Open Scope string_scope.

(** ** Python string operations used by the server *)

Module Py.

(** [s.startswith(p)] *)
Definition startswith (s p : string) : bool := String.prefix p s.

(** [s.endswith(suf)] *)
Definition endswith (s suf : string) : bool :=
  (String.length suf <=? String.length s)%nat
  && String.eqb
       (String.substring (String.length s - String.length suf)
          (String.length suf) s)
       suf.

(** [s[n:]] *)
Fixpoint slice_from (n : nat) (s : string) : string :=
  match n, s with
  | O, _ => s
  | S _, EmptyString => EmptyString
  | S n', String _ s' => slice_from n' s'
  end.

(** [s.rstrip(c)] for a one-character set *)
Fixpoint rstrip (c : ascii) (s : string) : string :=
  match s with
  | EmptyString => EmptyString
  | String a s' =>
      match rstrip c s' with
      | EmptyString => if Ascii.eqb a c then EmptyString else String a EmptyString
      | r => String a r
      end
  end.

(** [s.lstrip(c)] for a one-character set *)
Fixpoint lstrip (c : ascii) (s : string) : string :=
  match s with
  | EmptyString => EmptyString
  | String a s' => if Ascii.eqb a c then lstrip c s' else s
  end.

(** [s.split(c)[-1]]: what follows the last [c] *)
Fixpoint last_segment (c : ascii) (s : string) : string :=
  match s with
  | EmptyString => EmptyString
  | String a s' =>
      if existsb (Ascii.eqb c) (list_ascii_of_string s') then last_segment c s'
      else if Ascii.eqb a c then s' else s
  end.

Fixpoint insert_sorted (k : string) (l : list string) : list string :=
  match l with
  | [] => [k]
  | x :: r => if String.leb k x then k :: l else x :: insert_sorted k r
  end.

(** [sorted(l)] on strings *)
Definition sorted (l : list string) : list string :=
  fold_right insert_sorted [] l.

(** [max(1, min(limit, 1000))] *)
Definition clamp_limit (limit : Z) : Z := Z.max 1 (Z.min limit 1000).

(** [bytes.decode("utf-8")] in strict mode accepts exactly the well-formed
    byte sequences of the Unicode standard (table 3-7). *)
Definition in_range (lo hi : N) (a : ascii) : bool :=
  let n := N_of_ascii a in (lo <=? n)%N && (n <=? hi)%N.

Fixpoint utf8_valid (s : string) : bool :=
  match s with
  | EmptyString => true
  | String a r =>
      if in_range 0 127 a then utf8_valid r
      else if in_range 194 223 a then
        match r with
        | String b r1 => in_range 128 191 b && utf8_valid r1
        | _ => false
        end
      else if in_range 224 239 a then
        match r with
        | String b (String c r2) =>
            (if in_range 224 224 a then in_range 160 191 b
             else if in_range 237 237 a then in_range 128 159 b
             else in_range 128 191 b)
            && in_range 128 191 c && utf8_valid r2
        | _ => false
        end
      else if in_range 240 244 a then
        match r with
        | String b (String c (String d r3)) =>
            (if in_range 240 240 a then in_range 144 191 b
             else if in_range 244 244 a then in_range 128 143 b
             else in_range 128 191 b)
            && in_range 128 191 c && in_range 128 191 d && utf8_valid r3
        | _ => false
        end
      else false
  end.

(** [text.encode("utf-8")] *)
Definition encode_utf8 (text : string) : string := text.

(** [data.decode("utf-8")]; [None] stands for [UnicodeDecodeError] *)
Definition decode_utf8 (data : string) : option string :=
  if utf8_valid data then Some data else None.

End Py.

(** ** Exceptions raised by the server and the libraries it calls *)

Inductive exn : Type :=
| RuntimeError (msg : string)
| ValueError (msg : string)
| ClientError (code : string)
| JSONDecodeError
| UnicodeDecodeError
| TypeError
| AttributeError
| RecursionError.

Inductive outcome (A : Type) : Type :=
| Ok (a : A)
| Err (e : exn).
Arguments Ok {A} a.
Arguments Err {A} e.

(** ** Configuration ([strands_hub.HubConfig], as [hub_status] reads it) *)

Record HubConfig : Type := {
  use_s3 : bool;
  bucket : string;
  region : string;
  sessions_prefix : string;
  metrics_prefix : string;
  prompts_prefix : string;
  registry_key : string
}.

(** ** The bucket *)

Record s3object : Type := {
  body : string;
  content_type : string
}.

Record list_request : Type := {
  req_prefix : string;
  req_delimiter : option string;
  req_max_keys : Z;
  req_continuation_token : option string
}.

(** A response of [list_objects_v2]: the [Prefix] member of each entry of
    [CommonPrefixes] (when it has one), the [Key] of each entry of
    [Contents], [NextContinuationToken] and [IsTruncated]. *)
Record list_response : Type := {
  resp_common_prefixes : list (option string);
  resp_contents : list string;
  resp_next_continuation_token : option string;
  resp_is_truncated : bool
}.

Inductive call : Type :=
| CHead (key : string)
| CGet (key : string)
| CPut (key : string) (data : string) (ctype : string)
| CList (req : list_request)
| CTime.

(** ** Results returned by the tools *)

Record create_result : Type := {
  cr_ok : bool;
  cr_version_key : string;
  cr_manifest_key : string
}.

Record prefix_page : Type := {
  pp_prefixes : list string;
  pp_next_continuation_token : option string;
  pp_is_truncated : bool
}.

Record id_page : Type := {
  ip_ids : list string;
  ip_prefixes : list string;
  ip_next_continuation_token : option string;
  ip_is_truncated : bool
}.

Record key_page : Type := {
  kp_keys : list string;
  kp_next_continuation_token : option string;
  kp_is_truncated : bool
}.

Section Values.

(** Python numbers ([int] and [float]); the server never computes with
    them, it only stores the clock reading in [created_at]. *)
Context {number : Type}.

(** ** JSON values as Python sees them

    A [dict] keeps insertion order: it is an association list whose
    lookups take the first binding and whose updates keep the position of
    an existing key. *)
#[warnings="-register-all"]
Inductive json : Type :=
| JNull
| JBool (b : bool)
| JNum (n : number)
| JStr (s : string)
| JList (l : list json)
| JDict (d : list (string * json)).

Definition dict : Type := list (string * json).

(** [k in d] *)
Fixpoint dict_mem (k : string) (d : dict) : bool :=
  match d with
  | [] => false
  | (k', _) :: r => String.eqb k' k || dict_mem k r
  end.

(** [d[k]], [None] when the key is missing *)
Fixpoint dict_lookup (k : string) (d : dict) : option json :=
  match d with
  | [] => None
  | (k', v) :: r => if String.eqb k' k then Some v else dict_lookup k r
  end.

(** [d.get(k)] *)
Definition dict_get (k : string) (d : dict) : json :=
  default JNull (dict_lookup k d).

(** [d[k] = v] *)
Fixpoint dict_set (k : string) (v : json) (d : dict) : dict :=
  match d with
  | [] => [(k, v)]
  | (k', v') :: r =>
      if String.eqb k' k then (k, v) :: r else (k', v') :: dict_set k v r
  end.

(** [isinstance(v, list)] *)
Definition is_list (v : json) : bool :=
  match v with JList _ => true | _ => false end.

Definition is_dict (v : json) : bool :=
  match v with JDict _ => true | _ => false end.

(** [v == s] for a Python [str] [s] *)
Definition eq_str (v : json) (s : string) : bool :=
  match v with JStr s' => String.eqb s' s | _ => false end.

(** ** Programs over the store *)

Inductive prog (A : Type) : Type :=
| Ret (a : A)
| Raise (e : exn)
| HeadObject (key : string) (k : bool -> prog A)
| GetObject (key : string) (k : string -> prog A)
| PutObject (key : string) (data : string) (ctype : string) (k : prog A)
| ListObjectsV2 (req : list_request) (k : list_response -> prog A)
| TimeTime (k : number -> prog A).
Arguments Ret {A} a.
Arguments Raise {A} e.
Arguments HeadObject {A} key k.
Arguments GetObject {A} key k.
Arguments PutObject {A} key data ctype k.
Arguments ListObjectsV2 {A} req k.
Arguments TimeTime {A} k.

Fixpoint bind {A B : Type} (p : prog A) (f : A -> prog B) : prog B :=
  match p with
  | Ret a => f a
  | Raise e => Raise e
  | HeadObject key k => HeadObject key (fun b => bind (k b) f)
  | GetObject key k => GetObject key (fun d => bind (k d) f)
  | PutObject key data ctype k => PutObject key data ctype (bind k f)
  | ListObjectsV2 req k => ListObjectsV2 req (fun r => bind (k r) f)
  | TimeTime k => TimeTime (fun t => bind (k t) f)
  end.

#[global] Instance prog_ret : MRet prog := fun A a => Ret a.
#[global] Instance prog_bind : MBind prog := fun A B f p => bind p f.

(** A pure step that may raise *)
Definition lift {A : Type} (o : outcome A) : prog A :=
  match o with Ok a => Ret a | Err e => Raise e end.

(** The contents of the bucket and the reading of the clock *)
Record world : Type := {
  objects : gmap string s3object;
  clock : number
}.

Definition put (key data ctype : string) (w : world) : world :=
  {| objects := <[key := {| body := data; content_type := ctype |}]> (objects w);
     clock := clock w |}.

End Values.

Arguments Ret {number A} a.
Arguments Raise {number A} e.
Arguments HeadObject {number A} key k.
Arguments GetObject {number A} key k.
Arguments PutObject {number A} key data ctype k.
Arguments ListObjectsV2 {number A} req k.
Arguments TimeTime {number A} k.

(** ** The libraries the server calls

    [list_objects_v2] is the response of the listing service to a request on
    given contents of the bucket; [json_loads] is [json.loads], with [None]
    for any exception it raises, and [json_loads_error] is the exception it
    raises on such a text ([JSONDecodeError] for malformed text, but also a
    plain [ValueError] for an integer literal beyond the digit limit or
    [RecursionError] for deep nesting); [json_dumps] is
    [json.dumps(_, indent=2)];
    the last five are the methods of [strands_hub.AgentRegistry] and
    [strands_hub.S3PromptManager] that the registry and prompt-read tools
    call; they read the ambient configuration themselves, which is their
    first argument here. *)
Class Libraries (number : Type) : Type := {
  list_objects_v2 : gmap string s3object -> list_request -> list_response;
  json_loads : string -> option (@json number);
  json_loads_error : string -> exn;
  json_dumps : @json number -> string;
  AgentRegistry_list_agents :
    HubConfig -> option string -> @prog number (list (@json number));
  AgentRegistry_get_agent :
    HubConfig -> string -> @prog number (option (@json number));
  AgentRegistry_update_agent :
    HubConfig -> string -> option string -> option (list string) ->
    option string -> option string -> option string -> option string ->
    @prog number (option (@json number));
  S3PromptManager_get_current : HubConfig -> string -> bool -> @prog number string;
  S3PromptManager_get_version : HubConfig -> string -> string -> @prog number string
}.

Section Server.

Context {number : Type} {lib : Libraries number}.
#[local] Abbreviation json := (@json number).
#[local] Abbreviation dict := (@dict number).
#[local] Abbreviation prog := (@prog number).
#[local] Abbreviation world := (@world number).

(** One call, executed atomically *)
Definition step {A : Type} (p : prog A) (w : world) : prog A * world :=
  match p with
  | Ret a => (Ret a, w)
  | Raise e => (Raise e, w)
  | HeadObject key k => (k (bool_decide (is_Some (objects w !! key))), w)
  | GetObject key k =>
      (match objects w !! key with
       | Some o => k (body o)
       | None => Raise (ClientError "NoSuchKey")
       end, w)
  | PutObject key data ctype k => (k, put key data ctype w)
  | ListObjectsV2 req k => (k (list_objects_v2 (objects w) req), w)
  | TimeTime k => (k (clock w), w)
  end.

(** A whole program run by one caller with nobody else writing: the
    outcome, the final world and the calls made, in order. *)
Fixpoint run {A : Type} (p : prog A) (w : world) : outcome A * world * list call :=
  match p with
  | Ret a => (Ok a, w, [])
  | Raise e => (Err e, w, [])
  | HeadObject key k =>
      let '(r, w', t) := run (k (bool_decide (is_Some (objects w !! key)))) w in
      (r, w', CHead key :: t)
  | GetObject key k =>
      match objects w !! key with
      | Some o => let '(r, w', t) := run (k (body o)) w in (r, w', CGet key :: t)
      | None => (Err (ClientError "NoSuchKey"), w, [CGet key])
      end
  | PutObject key data ctype k =>
      let '(r, w', t) := run k (put key data ctype w) in
      (r, w', CPut key data ctype :: t)
  | ListObjectsV2 req k =>
      let '(r, w', t) := run (k (list_objects_v2 (objects w) req)) w in
      (r, w', CList req :: t)
  | TimeTime k =>
      let '(r, w', t) := run (k (clock w)) w in (r, w', CTime :: t)
  end.

(** Several callers: [sched] names, call by call, the caller who moves. *)
Fixpoint interleave {A : Type} (sched : list nat) (ts : list (prog A)) (w : world)
  : list (prog A) * world :=
  match sched with
  | [] => (ts, w)
  | i :: sched' =>
      match ts !! i with
      | Some p => let '(p', w') := step p w in interleave sched' (<[i := p']> ts) w'
      | None => interleave sched' ts w
      end
  end.

(** [n] calls of one caller *)
Fixpoint steps {A : Type} (n : nat) (p : prog A) (w : world) : prog A * world :=
  match n with
  | O => (p, w)
  | S n' => let '(p', w') := step p w in steps n' p' w'
  end.

(** ** Helpers of [server.py] *)

(** A Python optional string used as a condition ([if x:]) *)
Definition truthy (x : option string) : option string :=
  match x with
  | Some s => if String.eqb s EmptyString then None else Some s
  | None => None
  end.

Definition _cfg (get_config : HubConfig) : prog HubConfig :=
  let cfg := get_config in
  if negb (use_s3 cfg) then
    Raise (RuntimeError "This MCP server currently requires USE_S3=true")
  else Ret cfg.

Definition _ensure_trailing_slash (prefix : string) : string :=
  if Py.endswith prefix "/" then prefix else prefix +:+ "/".

Definition _sessions_root (cfg : HubConfig) : string :=
  _ensure_trailing_slash (sessions_prefix cfg).

Definition _s3_get_text (cfg : HubConfig) (key : string) : prog string :=
  GetObject key (fun data =>
    match Py.decode_utf8 data with
    | Some text => Ret text
    | None => Raise UnicodeDecodeError
    end).

Definition _s3_get_json (cfg : HubConfig) (key : string) : prog json :=
  text ← _s3_get_text cfg key;
  match json_loads text with
  | Some v => Ret v
  | None => Raise (json_loads_error text)
  end.

Definition _s3_put_text (cfg : HubConfig) (key content ctype : string) : prog unit :=
  PutObject key (Py.encode_utf8 content) ctype (Ret tt).

Definition _s3_exists (cfg : HubConfig) (key : string) : prog bool :=
  HeadObject key Ret.

Definition _list_common_prefixes (cfg : HubConfig) (prefix : string) (limit : Z)
    (continuation_token : option string) : prog prefix_page :=
  let kwargs :=
    {| req_prefix := _ensure_trailing_slash prefix;
       req_delimiter := Some "/";
       req_max_keys := Py.clamp_limit limit;
       req_continuation_token := truthy continuation_token |} in
  ListObjectsV2 kwargs (fun resp =>
    let prefixes := omap id (resp_common_prefixes resp) in
    Ret {| pp_prefixes := prefixes;
           pp_next_continuation_token := resp_next_continuation_token resp;
           pp_is_truncated := resp_is_truncated resp |}).

(** ** Status *)

Definition hub_status (get_config : HubConfig) : prog HubConfig :=
  cfg ← _cfg get_config;
  Ret {| use_s3 := use_s3 cfg; bucket := bucket cfg; region := region cfg;
         sessions_prefix := sessions_prefix cfg;
         metrics_prefix := metrics_prefix cfg;
         prompts_prefix := prompts_prefix cfg;
         registry_key := registry_key cfg |}.

(** ** Registry and prompt reads: delegated to [strands_hub] *)

Definition registry_list_agents (get_config : HubConfig) (tag : option string)
  : prog (list json) :=
  AgentRegistry_list_agents get_config tag.

Definition registry_get_agent (get_config : HubConfig) (agent_id : string)
  : prog (option json) :=
  AgentRegistry_get_agent get_config agent_id.

Definition registry_update_metadata (get_config : HubConfig) (agent_id : string)
    (description : option string) (tags : option (list string))
    (repo_url owner environment model_id : option string) : prog (option json) :=
  AgentRegistry_update_agent get_config agent_id description tags repo_url owner
    environment model_id.

Definition prompts_get_current (get_config : HubConfig) (agent_id : string)
    (force_refresh : bool) : prog string :=
  S3PromptManager_get_current get_config agent_id force_refresh.

Definition prompts_get_version (get_config : HubConfig) (agent_id version : string)
  : prog string :=
  S3PromptManager_get_version get_config agent_id version.

(** ** Prompts *)

Definition version_key_of (cfg : HubConfig) (agent_id version : string) : string :=
  prompts_prefix cfg +:+ agent_id +:+ "/" +:+ version +:+ ".txt".

Definition manifest_key_of (cfg : HubConfig) (agent_id : string) : string :=
  prompts_prefix cfg +:+ agent_id +:+ "/versions.json".

(** [{"versions": [], "current": None}] *)
Definition empty_manifest : dict :=
  [("versions", JList []); ("current", JNull)].

Definition prompts_list_versions (get_config : HubConfig) (agent_id : string)
  : prog json :=
  cfg ← _cfg get_config;
  let manifest_key := manifest_key_of cfg agent_id in
  ex ← _s3_exists cfg manifest_key;
  if (ex : bool) then _s3_get_json cfg manifest_key
  else Ret (JDict empty_manifest).

(** Lines 222-225 on the value read from [versions.json]: anything but a
    [dict] fails on the membership test or on the subscript. *)
Definition with_defaults (d : dict) : dict :=
  let d1 :=
    if negb (dict_mem "versions" d) || negb (is_list (dict_get "versions" d))
    then dict_set "versions" (JList []) d else d in
  if negb (dict_mem "current" d1) then dict_set "current" JNull d1 else d1.

Definition manifest_defaults (manifest : json) : outcome dict :=
  match manifest with
  | JDict d => Ok (with_defaults d)
  | _ => Err TypeError
  end.

(** [any(v.get("version") == version for v in versions)]: stops at the
    first match; an entry without [.get] met before that raises. *)
Fixpoint any_version (version : string) (versions : list json) : outcome bool :=
  match versions with
  | [] => Ok false
  | JDict v :: rest =>
      if eq_str (dict_get "version" v) version then Ok true
      else any_version version rest
  | _ :: _ => Err AttributeError
  end.

(** [manifest["versions"]] as the list it is after [manifest_defaults] *)
Definition manifest_versions (manifest : dict) : outcome (list json) :=
  match dict_lookup "versions" manifest with
  | Some (JList l) => Ok l
  | _ => Err TypeError
  end.

Definition new_entry (version : string) (note : option string) (now : number) : json :=
  JDict [("version", JStr version);
         ("note", match note with Some n => JStr n | None => JNull end);
         ("created_at", JNum now)].

Definition prompts_create_version (get_config : HubConfig)
    (agent_id version content : string) (note : option string)
  : prog create_result :=
  cfg ← _cfg get_config;
  if String.eqb version EmptyString then Raise (ValueError "version is required") else
  let version_key := version_key_of cfg agent_id version in
  ex ← _s3_exists cfg version_key;
  if (ex : bool) then
    Raise (RuntimeError ("Prompt version already exists: " +:+ version))
  else
  _ ← _s3_put_text cfg version_key content "text/plain";
  let manifest_key := manifest_key_of cfg agent_id in
  mex ← _s3_exists cfg manifest_key;
  manifest ← (if (mex : bool) then
                m ← _s3_get_json cfg manifest_key; lift (manifest_defaults m)
              else Ret empty_manifest);
  versions ← lift (manifest_versions manifest);
  listed ← lift (any_version version versions);
  if (listed : bool) then
    Raise (RuntimeError ("Prompt version already listed in manifest: " +:+ version))
  else
  now ← TimeTime Ret;
  let manifest' :=
    dict_set "versions" (JList (versions ++ [new_entry version note now])) manifest in
  _ ← _s3_put_text cfg manifest_key (json_dumps (JDict manifest')) "application/json";
  Ret {| cr_ok := true; cr_version_key := version_key;
         cr_manifest_key := manifest_key |}.

(** ** Metrics (read-only) *)

Definition key_page_of (resp : list_response) (keys : list string) : key_page :=
  {| kp_keys := keys;
     kp_next_continuation_token := resp_next_continuation_token resp;
     kp_is_truncated := resp_is_truncated resp |}.

Definition metrics_list (get_config : HubConfig) (date_prefix agent_id : option string)
    (limit : Z) (continuation_token : option string) : prog key_page :=
  cfg ← _cfg get_config;
  let prefix := metrics_prefix cfg in
  let prefix :=
    match truthy date_prefix with
    | Some d => prefix +:+ d +:+ "/"
    | None => prefix
    end in
  let kwargs :=
    {| req_prefix := prefix; req_delimiter := None;
       req_max_keys := Py.clamp_limit limit;
       req_continuation_token := truthy continuation_token |} in
  ListObjectsV2 kwargs (fun resp =>
    let keys := resp_contents resp in
    let keys :=
      match truthy agent_id with
      | Some a =>
          List.filter
            (fun k => Py.startswith (Py.last_segment "/" k) (a +:+ "_")) keys
      | None => keys
      end in
    Ret (key_page_of resp keys)).

Definition metrics_get (get_config : HubConfig) (s3_key : string) : prog json :=
  cfg ← _cfg get_config;
  if negb (Py.startswith s3_key (metrics_prefix cfg)) then
    Raise (ValueError "s3_key must be under metrics prefix")
  else _s3_get_json cfg s3_key.

(** ** Sessions (read-only) *)

(** [[p[len(root):].rstrip("/") for p in prefixes if p.startswith(root)]] *)
Definition child_names (root : string) (prefixes : list string) : list string :=
  List.map (fun p => Py.rstrip "/" (Py.slice_from (String.length root) p))
    (List.filter (fun p => Py.startswith p root) prefixes).

Definition id_page_of (root : string) (resp : prefix_page) : id_page :=
  {| ip_ids := child_names root (pp_prefixes resp);
     ip_prefixes := pp_prefixes resp;
     ip_next_continuation_token := pp_next_continuation_token resp;
     ip_is_truncated := pp_is_truncated resp |}.

Definition sessions_list (get_config : HubConfig) (limit : Z)
    (continuation_token : option string) : prog id_page :=
  cfg ← _cfg get_config;
  let root := _sessions_root cfg in
  resp ← _list_common_prefixes cfg root limit continuation_token;
  Ret (id_page_of root resp).

Definition sessions_get_session_json (get_config : HubConfig) (session_id : string)
  : prog json :=
  cfg ← _cfg get_config;
  let key := _sessions_root cfg +:+ session_id +:+ "/session.json" in
  _s3_get_json cfg key.

Definition sessions_list_agents (get_config : HubConfig) (session_id : string)
    (limit : Z) (continuation_token : option string) : prog id_page :=
  cfg ← _cfg get_config;
  let agents_prefix := _sessions_root cfg +:+ session_id +:+ "/agents/" in
  resp ← _list_common_prefixes cfg agents_prefix limit continuation_token;
  Ret (id_page_of agents_prefix resp).

Definition sessions_get_agent_json (get_config : HubConfig)
    (session_id agent_id : string) : prog json :=
  cfg ← _cfg get_config;
  let key :=
    _sessions_root cfg +:+ session_id +:+ "/agents/" +:+ agent_id +:+ "/agent.json" in
  _s3_get_json cfg key.

Definition sessions_list_messages (get_config : HubConfig)
    (session_id agent_id : string) (limit : Z) (continuation_token : option string)
  : prog key_page :=
  cfg ← _cfg get_config;
  let prefix :=
    _sessions_root cfg +:+ session_id +:+ "/agents/" +:+ agent_id +:+ "/messages/" in
  let kwargs :=
    {| req_prefix := prefix; req_delimiter := None;
       req_max_keys := Py.clamp_limit limit;
       req_continuation_token := truthy continuation_token |} in
  ListObjectsV2 kwargs (fun resp =>
    Ret (key_page_of resp (Py.sorted (resp_contents resp)))).

Definition sessions_get_message_json (get_config : HubConfig)
    (session_id message_key agent_id : string) : prog json :=
  cfg ← _cfg get_config;
  let base :=
    _sessions_root cfg +:+ session_id +:+ "/agents/" +:+ agent_id +:+ "/messages/" in
  let key :=
    if Py.startswith message_key base then message_key
    else base +:+ Py.lstrip "/" message_key in
  if negb (Py.startswith key base) then
    Raise (ValueError "message_key must be under the session messages prefix")
  else _s3_get_json cfg key.

(** [{"s3_key": k, "json": v}] or [{"s3_key": k, "text": t}] *)
Inductive raw_result : Type :=
| RawJson (s3_key : string) (value : json)
| RawText (s3_key : string) (text : string).

Definition sessions_get_raw (get_config : HubConfig) (s3_key : string)
  : prog raw_result :=
  cfg ← _cfg get_config;
  let prefix := _sessions_root cfg in
  if negb (Py.startswith s3_key prefix) then
    Raise (ValueError "s3_key must be under sessions prefix")
  else
  text ← _s3_get_text cfg s3_key;
  match json_loads text with
  | Some v => Ret (RawJson s3_key v)
  | None => Ret (RawText s3_key text)
  end.

(** ** The tools as the dispatcher exposes them ([@mcp.tool()]) *)

Inductive tool : Type :=
| hub_status_tool
| registry_list_agents_tool (tag : option string)
| registry_get_agent_tool (agent_id : string)
| registry_update_metadata_tool (agent_id : string) (description : option string)
    (tags : option (list string)) (repo_url owner environment model_id : option string)
| prompts_get_current_tool (agent_id : string) (force_refresh : bool)
| prompts_get_version_tool (agent_id version : string)
| prompts_list_versions_tool (agent_id : string)
| prompts_create_version_tool (agent_id version content : string) (note : option string)
| metrics_list_tool (date_prefix agent_id : option string) (limit : Z)
    (continuation_token : option string)
| metrics_get_tool (s3_key : string)
| sessions_list_tool (limit : Z) (continuation_token : option string)
| sessions_get_session_json_tool (session_id : string)
| sessions_list_agents_tool (session_id : string) (limit : Z)
    (continuation_token : option string)
| sessions_get_agent_json_tool (session_id agent_id : string)
| sessions_list_messages_tool (session_id agent_id : string) (limit : Z)
    (continuation_token : option string)
| sessions_get_message_json_tool (session_id message_key agent_id : string)
| sessions_get_raw_tool (s3_key : string).

Inductive tool_value : Type :=
| VConfig (c : HubConfig)
| VJson (v : json)
| VJsonList (l : list json)
| VJsonOpt (o : option json)
| VText (s : string)
| VCreated (r : create_result)
| VIds (p : id_page)
| VKeys (p : key_page)
| VRaw (r : raw_result).

Definition returning {A : Type} (f : A -> tool_value) (p : prog A) : prog tool_value :=
  a ← p; Ret (f a).

Definition call_tool (get_config : HubConfig) (t : tool) : prog tool_value :=
  match t with
  | hub_status_tool => returning VConfig (hub_status get_config)
  | registry_list_agents_tool tag =>
      returning VJsonList (registry_list_agents get_config tag)
  | registry_get_agent_tool agent_id =>
      returning VJsonOpt (registry_get_agent get_config agent_id)
  | registry_update_metadata_tool agent_id description tags repo_url owner
      environment model_id =>
      returning VJsonOpt
        (registry_update_metadata get_config agent_id description tags repo_url
           owner environment model_id)
  | prompts_get_current_tool agent_id force_refresh =>
      returning VText (prompts_get_current get_config agent_id force_refresh)
  | prompts_get_version_tool agent_id version =>
      returning VText (prompts_get_version get_config agent_id version)
  | prompts_list_versions_tool agent_id =>
      returning VJson (prompts_list_versions get_config agent_id)
  | prompts_create_version_tool agent_id version content note =>
      returning VCreated
        (prompts_create_version get_config agent_id version content note)
  | metrics_list_tool date_prefix agent_id limit continuation_token =>
      returning VKeys
        (metrics_list get_config date_prefix agent_id limit continuation_token)
  | metrics_get_tool s3_key => returning VJson (metrics_get get_config s3_key)
  | sessions_list_tool limit continuation_token =>
      returning VIds (sessions_list get_config limit continuation_token)
  | sessions_get_session_json_tool session_id =>
      returning VJson (sessions_get_session_json get_config session_id)
  | sessions_list_agents_tool session_id limit continuation_token =>
      returning VIds
        (sessions_list_agents get_config session_id limit continuation_token)
  | sessions_get_agent_json_tool session_id agent_id =>
      returning VJson (sessions_get_agent_json get_config session_id agent_id)
  | sessions_list_messages_tool session_id agent_id limit continuation_token =>
      returning VKeys
        (sessions_list_messages get_config session_id agent_id limit
           continuation_token)
  | sessions_get_message_json_tool session_id message_key agent_id =>
      returning VJson
        (sessions_get_message_json get_config session_id message_key agent_id)
  | sessions_get_raw_tool s3_key =>
      returning VRaw (sessions_get_raw get_config s3_key)
  end.

(** The tools whose body starts with [cfg = _cfg()]; the other five hand
    the whole request to [AgentRegistry] or [S3PromptManager]. *)
Definition starts_with_cfg (t : tool) : bool :=
  match t with
  | registry_list_agents_tool _ | registry_get_agent_tool _
  | registry_update_metadata_tool _ _ _ _ _ _ _
  | prompts_get_current_tool _ _ | prompts_get_version_tool _ _ => false
  | _ => true
  end.

(** ** Observations used in the statements *)

Definition result_of {A : Type} (p : prog A) (w : world) : outcome A := (run p w).1.1.
Definition world_after {A : Type} (p : prog A) (w : world) : world := (run p w).1.2.
Definition calls_of {A : Type} (p : prog A) (w : world) : list call := (run p w).2.

(** What [versions.json] holds, read the way [prompts_create_version]
    reads it. *)
Definition load_manifest (o : option s3object) : outcome dict :=
  match o with
  | None => Ok empty_manifest
  | Some obj =>
      match Py.decode_utf8 (body obj) with
      | None => Err UnicodeDecodeError
      | Some text =>
          match json_loads text with
          | None => Err (json_loads_error text)
          | Some m => manifest_defaults m
          end
      end
  end.

(** What [prompts_list_versions] returns for the same object *)
Definition read_manifest (o : option s3object) : outcome json :=
  match o with
  | None => Ok (JDict empty_manifest)
  | Some obj =>
      match Py.decode_utf8 (body obj) with
      | None => Err UnicodeDecodeError
      | Some text =>
          match json_loads text with
          | None => Err (json_loads_error text)
          | Some m => Ok m
          end
      end
  end.

(** The version list of a manifest, empty when the member is missing or
    is not a list *)
Definition versions_of (d : dict) : list json :=
  match dict_lookup "versions" d with
  | Some (JList l) => l
  | _ => []
  end.

(** The manifest with one more entry, as line 232 builds it *)
Definition appended (d : dict) (entry : json) : dict :=
  dict_set "versions" (JList (versions_of d ++ [entry])) (with_defaults d).

(** A value that survives [json.dumps], [encode], [decode], [json.loads] *)
Definition readable (v : json) : Prop :=
  Py.decode_utf8 (Py.encode_utf8 (json_dumps v)) = Some (json_dumps v)
  /\ json_loads (json_dumps v) = Some v.

(** The entries of a version list that carry a given label *)
Definition has_label (version : string) (entry : json) : bool :=
  match entry with
  | JDict v => eq_str (dict_get "version" v) version
  | _ => false
  end.

Definition text_object (text ctype : string) : s3object :=
  {| body := Py.encode_utf8 text; content_type := ctype |}.

(** The same store at a later reading of the clock *)
Definition later (w : world) (now : number) : world :=
  {| objects := objects w; clock := now |}.

(** Calls to [prompts_create_version] for one agent, made one after the
    other, each at its own reading of the clock *)
Record request : Type := {
  rq_version : string;
  rq_content : string;
  rq_note : option string;
  rq_time : number
}.

Definition entry_of (r : request) : json :=
  new_entry (rq_version r) (rq_note r) (rq_time r).

(** A request whose label is non-empty and unused: no object at the key of
    the version, no entry of the manifest carrying the label, the entries
    being objects *)
Definition fresh_in (cfg : HubConfig) (agent_id : string) (w : world) (d0 : dict)
    (r : request) : Prop :=
  rq_version r <> EmptyString
  /\ objects w !! version_key_of cfg agent_id (rq_version r) = None
  /\ Forall (fun x => is_dict x = true /\ has_label (rq_version r) x = false)
       (versions_of d0).

Fixpoint run_all (cfg : HubConfig) (agent_id : string) (reqs : list request) (w : world)
  : list (outcome create_result) * world :=
  match reqs with
  | [] => ([], w)
  | r :: rest =>
      let p :=
        prompts_create_version cfg agent_id (rq_version r) (rq_content r) (rq_note r) in
      let w0 := later w (rq_time r) in
      let '(outs, w') := run_all cfg agent_id rest (world_after p w0) in
      (result_of p w0 :: outs, w')
  end.

(** The manifests such a sequence writes, and the last of them *)
Fixpoint manifests_after (d : dict) (reqs : list request) : list dict :=
  match reqs with
  | [] => []
  | r :: rest => appended d (entry_of r) :: manifests_after (appended d (entry_of r)) rest
  end.

Definition manifest_after (d : dict) (reqs : list request) : dict :=
  fold_left (fun d r => appended d (entry_of r)) reqs d.

(** The request [_list_common_prefixes] sends for one page *)
Definition one_level_request (prefix : string) (max_keys : Z) (token : option string)
  : list_request :=
  {| req_prefix := prefix; req_delimiter := Some "/"; req_max_keys := max_keys;
     req_continuation_token := token |}.

(** A store that lists the children [a/], [b/], [c/] of [prefix] in pages of
    two: the first page is truncated and comes with [cursor], the page
    after [cursor] is the last. *)
Definition three_children (objs : gmap string s3object) (prefix cursor : string) : Prop :=
  (exists contents,
     list_objects_v2 objs (one_level_request prefix 2%Z None)
     = {| resp_common_prefixes := [Some (prefix +:+ "a/"); Some (prefix +:+ "b/")];
          resp_contents := contents;
          resp_next_continuation_token := Some cursor;
          resp_is_truncated := true |})
  /\ (exists contents next,
       list_objects_v2 objs (one_level_request prefix 2%Z (Some cursor))
       = {| resp_common_prefixes := [Some (prefix +:+ "c/")];
            resp_contents := contents;
            resp_next_continuation_token := next;
            resp_is_truncated := false |}).

(** A listing tool that returns the three children in two pages, asking
    the store once per page and handing the store's cursor back to it *)
Definition lists_in_two_pages (list : Z -> option string -> prog id_page)
    (prefix cursor : string) (w : world) : Prop :=
  exists page1 page2,
    run (list 2%Z None) w = (Ok page1, w, [CList (one_level_request prefix 2%Z None)])
    /\ ip_ids page1 = ["a"; "b"]
    /\ ip_is_truncated page1 = true
    /\ ip_next_continuation_token page1 = Some cursor
    /\ run (list 2%Z (ip_next_continuation_token page1)) w
       = (Ok page2, w, [CList (one_level_request prefix 2%Z (Some cursor))])
    /\ ip_ids page2 = ["c"]
    /\ ip_is_truncated page2 = false
    /\ (ip_ids page1 ++ ip_ids page2)%list = ["a"; "b"; "c"].

(** The calls [prompts_create_version] makes before it tests the label
    against the manifest *)
Definition create_prefix_calls (cfg : HubConfig) (agent_id version content : string)
    (w : world) : list call :=
  [CHead (version_key_of cfg agent_id version);
   CPut (version_key_of cfg agent_id version) (Py.encode_utf8 content) "text/plain";
   CHead (manifest_key_of cfg agent_id)]
  ++ match objects w !! manifest_key_of cfg agent_id with
     | Some _ => [CGet (manifest_key_of cfg agent_id)]
     | None => []
     end.

Definition config_required : exn :=
  RuntimeError "This MCP server currently requires USE_S3=true".

Definition already_exists (version : string) : exn :=
  RuntimeError ("Prompt version already exists: " +:+ version).

Definition already_listed (version : string) : exn :=
  RuntimeError ("Prompt version already listed in manifest: " +:+ version).

Definition created (cfg : HubConfig) (agent_id version : string) : create_result :=
  {| cr_ok := true;
     cr_version_key := version_key_of cfg agent_id version;
     cr_manifest_key := manifest_key_of cfg agent_id |}.

(** ** One invocation of [prompts_create_version], call by call

    What is left of an invocation, with the backend enabled and a non-empty
    label, before each of its later calls: lines 234-236 for a manifest to
    write, lines 229-236 for a manifest in hand, lines 221-236 once the
    manifest is known to exist, lines 219-236, and lines 217-236. *)
Definition write_manifest (cfg : HubConfig) (agent_id version : string)
    (manifest : dict) : prog create_result :=
  _ ← _s3_put_text cfg (manifest_key_of cfg agent_id) (json_dumps (JDict manifest))
        "application/json";
  Ret (created cfg agent_id version).

Definition append_entry (cfg : HubConfig) (agent_id version : string)
    (note : option string) (manifest : dict) : prog create_result :=
  versions ← lift (manifest_versions manifest);
  listed ← lift (any_version version versions);
  if (listed : bool) then Raise (already_listed version) else
  now ← TimeTime Ret;
  write_manifest cfg agent_id version
    (dict_set "versions" (JList (versions ++ [new_entry version note now])) manifest).

Definition fetch_manifest (cfg : HubConfig) (agent_id version : string)
    (note : option string) : prog create_result :=
  manifest ← (m ← _s3_get_json cfg (manifest_key_of cfg agent_id);
              lift (manifest_defaults m));
  append_entry cfg agent_id version note manifest.

Definition update_manifest (cfg : HubConfig) (agent_id version : string)
    (note : option string) : prog create_result :=
  mex ← _s3_exists cfg (manifest_key_of cfg agent_id);
  manifest ← (if (mex : bool) then
                m ← _s3_get_json cfg (manifest_key_of cfg agent_id);
                lift (manifest_defaults m)
              else Ret empty_manifest);
  append_entry cfg agent_id version note manifest.

Definition write_version (cfg : HubConfig) (agent_id version content : string)
    (note : option string) : prog create_result :=
  _ ← _s3_put_text cfg (version_key_of cfg agent_id version) content "text/plain";
  update_manifest cfg agent_id version note.

(** Where an invocation stands: before one of its six calls, in order, or
    ended by one of the two refusals or by the return *)
Inductive stage : Type :=
| Checking
| WritingVersion
| Probing
| Fetching
| Timing
| WritingManifest
| Refused
| FoundListed
| Returned.

(** A caller is the content and the note it passes.  What is left to run
    at a stage, for callers that share the agent and the label, when the
    manifest read is [d0] and the clock reads [now] *)
Definition stage_prog (cfg : HubConfig) (agent_id version : string) (d0 : dict)
    (now : number) (c : string * option string) (s : stage) : prog create_result :=
  match s with
  | Checking => prompts_create_version cfg agent_id version c.1 c.2
  | WritingVersion => write_version cfg agent_id version c.1 c.2
  | Probing => update_manifest cfg agent_id version c.2
  | Fetching => fetch_manifest cfg agent_id version c.2
  | Timing =>
      t ← TimeTime Ret;
      write_manifest cfg agent_id version (appended d0 (new_entry version c.2 t))
  | WritingManifest =>
      write_manifest cfg agent_id version (appended d0 (new_entry version c.2 now))
  | Refused => Raise (already_exists version)
  | FoundListed => Raise (already_listed version)
  | Returned => Ret (created cfg agent_id version)
  end.

(** The version object has been written by the invocation *)
Definition past_put (s : stage) : bool :=
  match s with
  | Checking | WritingVersion | Refused => false
  | _ => true
  end.

(** The calls an invocation at a stage has still to make, at most *)
Definition calls_left (s : stage) : nat :=
  match s with
  | Checking => 6
  | WritingVersion => 5
  | Probing => 4
  | Fetching => 3
  | Timing => 2
  | WritingManifest => 1
  | _ => 0
  end.

Definition ended (s : stage) : bool :=
  match s with
  | Refused | FoundListed | Returned => true
  | _ => false
  end.

(** An invocation that has returned or raised *)
Definition returned {A : Type} (p : prog A) : bool :=
  match p with
  | Ret _ | Raise _ => true
  | _ => false
  end.

(** The manifest object is the one some caller writes *)
Definition manifest_written (cfg : HubConfig) (agent_id version : string) (d0 : dict)
    (now : number) (callers : list (string * option string)) (w : world) : Prop :=
  exists c,
    c ∈ callers
    /\ objects w !! manifest_key_of cfg agent_id
       = Some (text_object
                 (json_dumps (JDict (appended d0 (new_entry version c.2 now))))
                 "application/json").

(** What a stage has seen of the store *)
Definition stage_ok (cfg : HubConfig) (agent_id version : string) (d0 : dict)
    (now : number) (callers : list (string * option string)) (w : world) (s : stage)
  : Prop :=
  match s with
  | Fetching => is_Some (objects w !! manifest_key_of cfg agent_id)
  | Refused => is_Some (objects w !! version_key_of cfg agent_id version)
  | FoundListed | Returned => manifest_written cfg agent_id version d0 now callers w
  | _ => True
  end.

(** What holds of the store and of the stages of the callers, however
    their calls interleave, from a store [w0] whose manifest reads as [d0] *)
Record callers_inv (cfg : HubConfig) (agent_id version : string) (w0 : world)
    (d0 : dict) (callers : list (string * option string)) (stages : list stage)
    (w : world) : Prop := {
  inv_length : List.length stages = List.length callers;
  inv_clock : clock w = clock w0;
  inv_manifest :
    objects w !! manifest_key_of cfg agent_id
    = objects w0 !! manifest_key_of cfg agent_id
    \/ manifest_written cfg agent_id version d0 (clock w0) callers w;
  inv_stages : Forall (stage_ok cfg agent_id version d0 (clock w0) callers w) stages;
  inv_version :
    is_Some (objects w !! version_key_of cfg agent_id version) ->
    exists j s, stages !! j = Some s /\ past_put s = true;
  inv_written :
    manifest_written cfg agent_id version d0 (clock w0) callers w ->
    exists j, stages !! j = Some Returned
}.

(** ** Observations used in the further facts *)

(** A call that changes the store *)
Definition is_write (c : call) : bool :=
  match c with CPut _ _ _ => true | _ => false end.

(** A program none of whose paths reaches [put_object] *)
Fixpoint never_puts {A : Type} (p : prog A) : Prop :=
  match p with
  | Ret _ | Raise _ => True
  | HeadObject _ k => forall b, never_puts (k b)
  | GetObject _ k => forall d, never_puts (k d)
  | PutObject _ _ _ _ => False
  | ListObjectsV2 _ k => forall r, never_puts (k r)
  | TimeTime k => forall t, never_puts (k t)
  end.

(** The status, listing and fetching tools: every tool but
    [prompts_create_version] and the five that call [strands_hub] *)
Definition reads_only (t : tool) : bool :=
  match t with
  | prompts_create_version_tool _ _ _ _ => false
  | _ => starts_with_cfg t
  end.

(** A name without a slash *)
Fixpoint no_slash (s : string) : bool :=
  match s with
  | EmptyString => true
  | String a r => negb (Ascii.eqb a "/") && no_slash r
  end.

(** The prefix under which the messages of one agent of one session lie *)
Definition messages_base (cfg : HubConfig) (session_id agent_id : string) : string :=
  _sessions_root cfg +:+ session_id +:+ "/agents/" +:+ agent_id +:+ "/messages/".

(** The label an entry of a version list carries, if any *)
Definition entry_label (entry : json) : option string :=
  match entry with
  | JDict v =>
      match dict_get "version" v with
      | JStr s => Some s
      | _ => None
      end
  | _ => None
  end.

(** A store whose manifest for the agent reads as an object (or is absent)
    and lists only labels whose version object is in the store *)
Definition manifest_consistent (cfg : HubConfig) (agent_id : string) (w : world) : Prop :=
  exists d : dict,
    read_manifest (objects w !! manifest_key_of cfg agent_id) = Ok (JDict d)
    /\ Forall (fun e => forall v, entry_label e = Some v ->
                                  is_Some (objects w !! version_key_of cfg agent_id v))
         (versions_of d).

(** The request a listing tool sends for a limit and a token *)
Definition page_request (prefix : string) (delimiter : option string) (limit : Z)
    (token : option string) : list_request :=
  {| req_prefix := prefix; req_delimiter := delimiter;
     req_max_keys := Py.clamp_limit limit;
     req_continuation_token := truthy token |}.

End Server.

(** ** A concrete instance of the libraries

    Numbers are integers.  The JSON codec prints the way
    [json.dumps(_, indent=2)] does and reads the fragment of JSON without
    fractions, exponents and [\u] escapes, every refusal being a
    [JSONDecodeError].  The listing service returns the
    keys under the prefix in byte order, collapses at the delimiter, cuts
    the page at [MaxKeys] and resumes after the item named by the token.
    The registry and the prompt manager answer from local state. *)

Module Demo.

Definition newline : string := String (ascii_of_nat 10) EmptyString.

Definition dquote : ascii := ascii_of_nat 34.

Fixpoint indent (level : nat) : string :=
  match level with
  | O => EmptyString
  | S n => "  " +:+ indent n
  end.

Fixpoint escape (s : string) : string :=
  match s with
  | EmptyString => EmptyString
  | String c r =>
      if Ascii.eqb c dquote then String "\" (String dquote (escape r))
      else if Ascii.eqb c "\" then String "\" (String "\" (escape r))
      else if Ascii.eqb c (ascii_of_nat 10) then String "\" (String "n" (escape r))
      else String c (escape r)
  end.

Definition quote (s : string) : string :=
  String dquote (escape s +:+ String dquote EmptyString).

Fixpoint dumps_at (level : nat) (v : @json Z) : string :=
  match v with
  | JNull => "null"
  | JBool true => "true"
  | JBool false => "false"
  | JNum n => NilZero.string_of_int (Z.to_int n)
  | JStr s => quote s
  | JList [] => "[]"
  | JList (x :: r) =>
      "[" +:+ newline +:+ indent (S level) +:+ dumps_at (S level) x
      +:+ (fix items (l : list json) : string :=
             match l with
             | [] => EmptyString
             | y :: l' =>
                 "," +:+ newline +:+ indent (S level) +:+ dumps_at (S level) y
                 +:+ items l'
             end) r
      +:+ newline +:+ indent level +:+ "]"
  | JDict [] => "{}"
  | JDict ((k, x) :: r) =>
      "{" +:+ newline +:+ indent (S level) +:+ quote k +:+ ": "
      +:+ dumps_at (S level) x
      +:+ (fix members (l : list (string * json)) : string :=
             match l with
             | [] => EmptyString
             | (k', y) :: l' =>
                 "," +:+ newline +:+ indent (S level) +:+ quote k' +:+ ": "
                 +:+ dumps_at (S level) y +:+ members l'
             end) r
      +:+ newline +:+ indent level +:+ "}"
  end.

Definition dumps (v : @json Z) : string := dumps_at 0 v.

Definition is_ws (c : ascii) : bool :=
  Ascii.eqb c " " || Ascii.eqb c (ascii_of_nat 10)
  || Ascii.eqb c (ascii_of_nat 9) || Ascii.eqb c (ascii_of_nat 13).

Fixpoint skip_ws (s : string) : string :=
  match s with
  | String c r => if is_ws c then skip_ws r else s
  | EmptyString => EmptyString
  end.

(** What follows an opening quote, up to the closing one *)
Fixpoint read_string (s : string) : option (string * string) :=
  match s with
  | EmptyString => None
  | String c r =>
      if Ascii.eqb c dquote then Some (EmptyString, r)
      else if Ascii.eqb c "\" then
        match r with
        | String e r' =>
            let unescaped :=
              if Ascii.eqb e "n" then Some (ascii_of_nat 10)
              else if Ascii.eqb e "t" then Some (ascii_of_nat 9)
              else if Ascii.eqb e dquote || Ascii.eqb e "\" || Ascii.eqb e "/"
                   then Some e
              else None in
            match unescaped, read_string r' with
            | Some x, Some (t, rest) => Some (String x t, rest)
            | _, _ => None
            end
        | EmptyString => None
        end
      else if (N_of_ascii c <? 32)%N then None
      else
        match read_string r with
        | Some (t, rest) => Some (String c t, rest)
        | None => None
        end
  end.

Definition is_digit (c : ascii) : bool :=
  (48 <=? N_of_ascii c)%N && (N_of_ascii c <=? 57)%N.

Fixpoint read_digits (s : string) : string * string :=
  match s with
  | String c r =>
      if is_digit c then let '(d, rest) := read_digits r in (String c d, rest)
      else (EmptyString, s)
  | EmptyString => (EmptyString, EmptyString)
  end.

Definition read_number (s : string) : option (Z * string) :=
  let '(neg, s') :=
    match s with
    | String "-" r => (true, r)
    | _ => (false, s)
    end in
  let '(d, rest) := read_digits s' in
  match d with
  | EmptyString => None
  | String "0" (String _ _) => None
  | _ =>
      match NilZero.uint_of_string d with
      | Some u => Some (if neg then (- Z.of_uint u)%Z else Z.of_uint u, rest)
      | None => None
      end
  end.

Definition read_word (word : string) (v : @json Z) (s : string)
  : option (@json Z * string) :=
  if String.prefix word s then Some (v, Py.slice_from (String.length word) s)
  else None.

(** The rest of an array after its first element *)
Fixpoint read_items (value : string -> option (@json Z * string)) (fuel : nat)
    (s : string) : option (list (@json Z) * string) :=
  match fuel with
  | O => None
  | S fuel' =>
      match skip_ws s with
      | String "]" rest => Some ([], rest)
      | String "," rest =>
          match value rest with
          | Some (v, rest') =>
              match read_items value fuel' rest' with
              | Some (l, rest'') => Some (v :: l, rest'')
              | None => None
              end
          | None => None
          end
      | _ => None
      end
  end.

Definition read_member (value : string -> option (@json Z * string)) (s : string)
  : option ((string * @json Z) * string) :=
  match skip_ws s with
  | String c r =>
      if negb (Ascii.eqb c dquote) then None else
      match read_string r with
      | Some (k, r') =>
          match skip_ws r' with
          | String ":" r'' =>
              match value r'' with
              | Some (v, rest) => Some ((k, v), rest)
              | None => None
              end
          | _ => None
          end
      | None => None
      end
  | EmptyString => None
  end.

(** The rest of an object after its first member *)
Fixpoint read_members (value : string -> option (@json Z * string)) (fuel : nat)
    (s : string) : option (@dict Z * string) :=
  match fuel with
  | O => None
  | S fuel' =>
      match skip_ws s with
      | String "}" rest => Some ([], rest)
      | String "," rest =>
          match read_member value rest with
          | Some (kv, rest') =>
              match read_members value fuel' rest' with
              | Some (l, rest'') => Some (kv :: l, rest'')
              | None => None
              end
          | None => None
          end
      | _ => None
      end
  end.

(** A repeated key keeps its first position and its last value. *)
Definition dict_of_members (l : list (string * @json Z)) : @dict Z :=
  fold_left (fun d kv => dict_set (fst kv) (snd kv) d) l [].

Fixpoint read_value (fuel : nat) (s : string) : option (@json Z * string) :=
  match fuel with
  | O => None
  | S fuel' =>
      match skip_ws s with
      | EmptyString => None
      | String c r as s' =>
          if Ascii.eqb c "n" then read_word "null" JNull s'
          else if Ascii.eqb c "t" then read_word "true" (JBool true) s'
          else if Ascii.eqb c "f" then read_word "false" (JBool false) s'
          else if Ascii.eqb c dquote then
            match read_string r with
            | Some (t, rest) => Some (JStr t, rest)
            | None => None
            end
          else if Ascii.eqb c "[" then
            match skip_ws r with
            | String "]" rest => Some (JList [], rest)
            | _ =>
                match read_value fuel' r with
                | Some (v, rest) =>
                    match read_items (read_value fuel') fuel' rest with
                    | Some (l, rest') => Some (JList (v :: l), rest')
                    | None => None
                    end
                | None => None
                end
            end
          else if Ascii.eqb c "{" then
            match skip_ws r with
            | String "}" rest => Some (JDict [], rest)
            | _ =>
                match read_member (read_value fuel') r with
                | Some (kv, rest) =>
                    match read_members (read_value fuel') fuel' rest with
                    | Some (l, rest') =>
                        Some (JDict (dict_of_members (kv :: l)), rest')
                    | None => None
                    end
                | None => None
                end
            end
          else
            match read_number s' with
            | Some (n, rest) => Some (JNum n, rest)
            | None => None
            end
      end
  end.

Definition loads (s : string) : option (@json Z) :=
  match read_value (S (String.length s)) s with
  | Some (v, rest) =>
      match skip_ws rest with
      | EmptyString => Some v
      | _ => None
      end
  | None => None
  end.

(** The listing service *)

Inductive item : Type :=
| IKey (key : string)
| IPrefix (prefix : string).

Definition item_name (i : item) : string :=
  match i with IKey k => k | IPrefix p => p end.

Definition collapse (prefix : string) (delimiter : option string) (key : string) : item :=
  match delimiter with
  | None => IKey key
  | Some d =>
      let rest := Py.slice_from (String.length prefix) key in
      match String.index 0 d rest with
      | Some i =>
          IPrefix (prefix +:+ String.substring 0 (i + String.length d) rest)
      | None => IKey key
      end
  end.

Fixpoint merge_items (l : list item) : list item :=
  match l with
  | [] => []
  | x :: r =>
      match merge_items r with
      | y :: r' =>
          if String.eqb (item_name x) (item_name y) then y :: r' else x :: y :: r'
      | [] => [x]
      end
  end.

Definition listing (objs : gmap string s3object) (req : list_request) : list_response :=
  let keys :=
    Py.sorted
      (List.filter (fun k => Py.startswith k (req_prefix req))
         (List.map fst (map_to_list objs))) in
  let items := merge_items (List.map (collapse (req_prefix req) (req_delimiter req)) keys) in
  let items :=
    match req_continuation_token req with
    | Some t => List.filter (fun i => negb (String.leb (item_name i) t)) items
    | None => items
    end in
  let n := Z.to_nat (req_max_keys req) in
  let page := firstn n items in
  let truncated := (n <? List.length items)%nat in
  {| resp_common_prefixes :=
       omap (fun i => match i with IPrefix p => Some (Some p) | IKey _ => None end) page;
     resp_contents :=
       omap (fun i => match i with IKey k => Some k | IPrefix _ => None end) page;
     resp_next_continuation_token :=
       if truncated then option_map item_name (last page) else None;
     resp_is_truncated := truncated |}.

#[global] Instance libraries : Libraries Z := {|
  list_objects_v2 := listing;
  json_loads := loads;
  json_loads_error := fun _ => JSONDecodeError;
  json_dumps := dumps;
  AgentRegistry_list_agents := fun _ _ => Ret [];
  AgentRegistry_get_agent := fun _ _ => Ret None;
  AgentRegistry_update_agent := fun _ _ _ _ _ _ _ _ => Ret None;
  S3PromptManager_get_current := fun _ _ _ => Ret "You are a helpful agent.";
  S3PromptManager_get_version := fun _ _ _ => Ret "You are a helpful agent."
|}.

Definition config : HubConfig :=
  {| use_s3 := true; bucket := "strands-hub"; region := "us-east-1";
     sessions_prefix := "sessions"; metrics_prefix := "metrics/";
     prompts_prefix := "system_prompts/"; registry_key := "registry.json" |}.

Definition config_local : HubConfig :=
  {| use_s3 := false; bucket := "strands-hub"; region := "us-east-1";
     sessions_prefix := "sessions"; metrics_prefix := "metrics/";
     prompts_prefix := "system_prompts/"; registry_key := "registry.json" |}.

Definition bucket_of (l : list (string * string)) : gmap string s3object :=
  list_to_map
    (List.map (fun kv => (fst kv, {| body := snd kv; content_type := "application/json" |})) l).

Definition world_of (l : list (string * string)) (now : Z) : @world Z :=
  {| objects := bucket_of l; clock := now |}.

(** An agent with one prompt version, which is the current one *)
Definition manifest_v1 : @dict Z :=
  [("versions",
    JList [JDict [("version", JStr "v1"); ("note", JStr "initial");
                  ("created_at", JNum 1700000000%Z)]]);
   ("current", JStr "v1")].

Definition prompts_world : @world Z :=
  world_of [("system_prompts/helper/v1.txt", "Be helpful.");
            ("system_prompts/helper/versions.json", dumps (JDict manifest_v1))]
    1700000100%Z.

(** A manifest that lists [v2] while no object sits at the key of [v2] *)
Definition manifest_v1_v2 : @dict Z :=
  [("versions",
    JList [JDict [("version", JStr "v1"); ("note", JStr "initial");
                  ("created_at", JNum 1700000000%Z)];
           JDict [("version", JStr "v2"); ("note", JNull);
                  ("created_at", JNum 1700000050%Z)]]);
   ("current", JStr "v1")].

Definition listed_world : @world Z :=
  world_of [("system_prompts/helper/v1.txt", "Be helpful.");
            ("system_prompts/helper/versions.json", dumps (JDict manifest_v1_v2))]
    1700000100%Z.

(** A manifest without the two members, as another writer may leave it *)
Definition bare_world : @world Z :=
  world_of [("system_prompts/helper/versions.json", "{}")] 1700000100%Z.

Definition empty_world : @world Z := world_of [] 1700000100%Z.

(** Three sessions; one key that is under the sessions prefix only as a
    string; one object that is not text; one that is text but not JSON *)
Definition sessions_world : @world Z :=
  world_of [("sessions/a/session.json", "{}");
            ("sessions/b/session.json", "{}");
            ("sessions/c/session.json", "{}");
            ("sessions/s1/agents/a/agent.json", "{}");
            ("sessions/s1/agents/b/agent.json", "{}");
            ("sessions/s1/agents/c/agent.json", "{}");
            ("sessions/../secret", "top secret");
            ("sessions/s1/blob", String (ascii_of_nat 255) EmptyString);
            ("sessions/s1/x", "not json");
            ("sessions/s1/session.json", dumps (JDict [("a", JNum 1%Z)]));
            ("metrics/2025-01-01/helper_1.json", "{}")]
    1700000100%Z.

Definition three_sessions : @world Z :=
  world_of [("sessions/a/session.json", "{}");
            ("sessions/b/session.json", "{}");
            ("sessions/c/session.json", "{}");
            ("sessions/a/agents/a/agent.json", "{}");
            ("sessions/a/agents/b/agent.json", "{}");
            ("sessions/a/agents/c/agent.json", "{}")]
    1700000100%Z.

(** Three calls, one after the other, with distinct labels *)
Definition three_requests : list (@request Z) :=
  [{| rq_version := "v2"; rq_content := "Be brief."; rq_note := None;
      rq_time := 1700000200%Z |};
   {| rq_version := "v3"; rq_content := "Be kind."; rq_note := Some "softer";
      rq_time := 1700000300%Z |};
   {| rq_version := "v4"; rq_content := "Be exact."; rq_note := None;
      rq_time := 1700000400%Z |}].

(** Two callers at once: each has checked and written its version and read
    the manifest before either writes the manifest back. *)
Definition schedule : list nat := [0; 0; 0; 0; 1; 1; 1; 1; 0; 0; 1; 1]%nat.

Definition race_distinct : list (@prog Z create_result) * @world Z :=
  interleave schedule
    [prompts_create_version config "helper" "v2" "Be brief." None;
     prompts_create_version config "helper" "v3" "Be kind." None]
    prompts_world.

(** Two callers with the same label: both have seen the key free before
    either writes *)
Definition race_same : list (@prog Z create_result) * @world Z :=
  interleave [0; 1; 0; 1; 0; 0; 1; 1; 0; 0; 1; 1]%nat
    [prompts_create_version config "helper" "v2" "Be brief." None;
     prompts_create_version config "helper" "v2" "Be kind." None]
    prompts_world.

(** A manifest that is text but not JSON, and one that is a JSON list *)
Definition broken_world : @world Z :=
  world_of [("system_prompts/helper/versions.json", "not json")] 1700000100%Z.

Definition list_manifest_world : @world Z :=
  world_of [("system_prompts/helper/versions.json", "[]")] 1700000100%Z.

(** Messages of one agent, and metrics of two agents *)
Definition messages_world : @world Z :=
  world_of [("sessions/s1/agents/a/messages/message_1.json", "{}");
            ("sessions/s1/agents/a/messages/message_0.json", "{}");
            ("sessions/s1/agents/a/messages/message_10.json", "{}");
            ("sessions/s1/agents/a/agent.json", "not json");
            ("sessions/s1/session.json", dumps (JDict [("a", JNum 1%Z)]));
            ("metrics/2025-01-01/helper_1.json", "{}");
            ("metrics/2025-01-01/helper_2.json", "{}");
            ("metrics/2025-01-01/other_1.json", "{}")]
    1700000100%Z.

Definition body_at (key : string) (w : @world Z) : option string :=
  body <$> objects w !! key.

End Demo.

Section Facts.

Context {number : Type} {lib : Libraries number}.
#[local] Abbreviation json := (@json number).
#[local] Abbreviation dict := (@dict number).
#[local] Abbreviation prog := (@prog number).
#[local] Abbreviation world := (@world number).
#[local] Abbreviation request := (@request number).

(** ** Basic facts *)

Lemma run_bind {A B : Type} (p : prog A) (f : A -> prog B) (w : world) :
  run (bind p f) w =
  match run p w with
  | (Ok a, w', t) => let '(r, w'', t') := run (f a) w' in (r, w'', (t ++ t')%list)
  | (Err e, w', t) => (Err e, w', t)
  end.
Proof.
  revert w; induction p as [a|e|key k IH|key k IH|key data ctype k IH|req k IH|k IH];
    intros w; simpl.
  - destruct (run (f a) w) as [[r w'] t]; reflexivity.
  - reflexivity.
  - rewrite IH. destruct (run (k _) w) as [[[a|e] w'] t]; [|reflexivity].
    destruct (run (f a) w') as [[r w''] t']; reflexivity.
  - destruct (objects w !! key) as [o|]; [|reflexivity].
    rewrite IH. destruct (run (k _) w) as [[[a|e] w'] t]; [|reflexivity].
    destruct (run (f a) w') as [[r w''] t']; reflexivity.
  - rewrite IH. destruct (run k _) as [[[a|e] w'] t]; [|reflexivity].
    destruct (run (f a) w') as [[r w''] t']; reflexivity.
  - rewrite IH. destruct (run (k _) w) as [[[a|e] w'] t]; [|reflexivity].
    destruct (run (f a) w') as [[r w''] t']; reflexivity.
  - rewrite IH. destruct (run (k _) w) as [[[a|e] w'] t]; [|reflexivity].
    destruct (run (f a) w') as [[r w''] t']; reflexivity.
Qed.

Lemma append_inv_head (s a b : string) : s +:+ a = s +:+ b -> a = b.
Proof. induction s as [|c s IH]; simpl; [auto|]. intros H; injection H; auto. Qed.

Lemma version_key_ne_manifest_key cfg agent_id version :
  version_key_of cfg agent_id version <> manifest_key_of cfg agent_id.
Proof.
  unfold version_key_of, manifest_key_of. intros H.
  do 2 apply append_inv_head in H. simpl in H. injection H as H.
  do 13 (destruct version as [|? version]; simpl in H; [discriminate|];
         injection H as ? H).
  destruct version; discriminate.
Qed.

Lemma put_lookup_ne key key' data ctype (w : world) :
  key <> key' -> objects (put key data ctype w) !! key' = objects w !! key'.
Proof. intros H. unfold put; simpl. by rewrite lookup_insert_ne. Qed.

Lemma create_version_run cfg agent_id version content note (w : world) :
  use_s3 cfg = true ->
  version <> EmptyString ->
  objects w !! version_key_of cfg agent_id version = None ->
  let w1 := put (version_key_of cfg agent_id version) content "text/plain" w in
  let pre := create_prefix_calls cfg agent_id version content w in
  run (prompts_create_version cfg agent_id version content note) w =
  match load_manifest (objects w !! manifest_key_of cfg agent_id) with
  | Err e => (Err e, w1, pre)
  | Ok m =>
      match manifest_versions m with
      | Err e => (Err e, w1, pre)
      | Ok vs =>
          match any_version version vs with
          | Err e => (Err e, w1, pre)
          | Ok true => (Err (already_listed version), w1, pre)
          | Ok false =>
              let text :=
                json_dumps
                  (JDict (dict_set "versions"
                            (JList (vs ++ [new_entry version note (clock w)])) m)) in
              (Ok (created cfg agent_id version),
               put (manifest_key_of cfg agent_id) text "application/json" w1,
               (pre ++ [CTime;
                        CPut (manifest_key_of cfg agent_id) (Py.encode_utf8 text)
                          "application/json"])%list)
          end
      end
  end.
Proof.
  intros Hs3 Hv Hfree w1 pre.
  unfold prompts_create_version, _cfg, _s3_put_text, Py.encode_utf8.
  rewrite Hs3. simpl.
  apply String.eqb_neq in Hv. rewrite Hv.
  simpl. rewrite Hfree. simpl.
  assert (Hm : forall o : s3object,
             <[version_key_of cfg agent_id version := o]> (objects w)
               !! manifest_key_of cfg agent_id
             = objects w !! manifest_key_of cfg agent_id)
    by (intros o; apply lookup_insert_ne, version_key_ne_manifest_key).
  rewrite Hm. subst pre w1. unfold create_prefix_calls, Py.encode_utf8, put.
  destruct (objects w !! manifest_key_of cfg agent_id) as [o|] eqn:Ho; simpl.
  - unfold mbind, prog_bind. rewrite Hm.
    destruct (Py.decode_utf8 (body o)) as [text|]; simpl; [|reflexivity].
    destruct (json_loads text) as [m|]; simpl; [|reflexivity].
    destruct (manifest_defaults m) as [d|e]; simpl; [|reflexivity].
    destruct (manifest_versions d) as [vs|e]; simpl; [|reflexivity].
    destruct (any_version version vs) as [[|]|e]; reflexivity.
  - reflexivity.
Qed.

(** ** Dictionaries *)

Lemma dict_mem_lookup k (d : dict) :
  dict_mem k d = match dict_lookup k d with Some _ => true | None => false end.
Proof.
  induction d as [|[k' v] d IH]; simpl; [done|].
  destruct (String.eqb k' k); simpl; [done|exact IH].
Qed.

Lemma dict_lookup_set_eq k v (d : dict) : dict_lookup k (dict_set k v d) = Some v.
Proof.
  induction d as [|[k' v'] d IH]; simpl.
  - by rewrite String.eqb_refl.
  - destruct (String.eqb k' k) eqn:E; simpl.
    + by rewrite String.eqb_refl.
    + by rewrite E.
Qed.

Lemma dict_lookup_set_ne k k' v (d : dict) :
  k <> k' -> dict_lookup k' (dict_set k v d) = dict_lookup k' d.
Proof.
  intros Hne. induction d as [|[k0 v0] d IH]; simpl.
  - apply String.eqb_neq in Hne. by rewrite Hne.
  - destruct (String.eqb k0 k) eqn:E; simpl.
    + apply String.eqb_eq in E; subst k0.
      apply String.eqb_neq in Hne. by rewrite Hne.
    + by rewrite IH.
Qed.

Lemma default_current_other k (d : dict) :
  k <> "current" ->
  dict_lookup k (if negb (dict_mem "current" d) then dict_set "current" JNull d else d)
  = dict_lookup k d.
Proof.
  intros Hne. destruct (dict_mem "current" d); simpl; [done|].
  by rewrite dict_lookup_set_ne.
Qed.

Lemma with_defaults_versions (d : dict) :
  dict_lookup "versions" (with_defaults d) = Some (JList (versions_of d)).
Proof.
  unfold with_defaults, versions_of, dict_get.
  rewrite default_current_other by done.
  rewrite dict_mem_lookup.
  destruct (dict_lookup "versions" d) as [x|] eqn:E; simpl.
  - destruct x; simpl; try apply dict_lookup_set_eq. exact E.
  - apply dict_lookup_set_eq.
Qed.

Lemma with_defaults_other k (d : dict) :
  k <> "versions" -> k <> "current" ->
  dict_lookup k (with_defaults d) = dict_lookup k d.
Proof.
  intros Hv Hc. unfold with_defaults.
  rewrite default_current_other by done.
  destruct (_ || _); [|done]. by rewrite dict_lookup_set_ne.
Qed.

Lemma with_defaults_current (d : dict) :
  dict_lookup "current" (with_defaults d) = Some (dict_get "current" d).
Proof.
  unfold with_defaults.
  set (d1 := if _ || _ then _ else d).
  assert (H1 : dict_lookup "current" d1 = dict_lookup "current" d).
  { subst d1. destruct (_ || _); [|done]. by rewrite dict_lookup_set_ne. }
  rewrite dict_mem_lookup, H1. unfold dict_get.
  destruct (dict_lookup "current" d) as [c|] eqn:E; simpl.
  - exact H1.
  - apply dict_lookup_set_eq.
Qed.

Lemma appended_versions (d : dict) entry :
  dict_lookup "versions" (appended d entry) = Some (JList (versions_of d ++ [entry])).
Proof. apply dict_lookup_set_eq. Qed.

Lemma appended_current (d : dict) entry :
  dict_lookup "current" (appended d entry) = Some (dict_get "current" d).
Proof.
  unfold appended. rewrite dict_lookup_set_ne by done. apply with_defaults_current.
Qed.

Lemma appended_other k (d : dict) entry :
  k <> "versions" -> k <> "current" ->
  dict_lookup k (appended d entry) = dict_lookup k d.
Proof.
  intros Hv Hc. unfold appended. rewrite dict_lookup_set_ne by done.
  by apply with_defaults_other.
Qed.

Lemma manifest_versions_defaults (d : dict) :
  manifest_versions (with_defaults d) = Ok (versions_of d).
Proof. unfold manifest_versions. by rewrite with_defaults_versions. Qed.

Lemma load_manifest_read o :
  load_manifest o =
  match read_manifest o with
  | Ok (JDict d) => Ok (with_defaults d)
  | Ok _ => Err TypeError
  | Err e => Err e
  end.
Proof.
  destruct o as [obj|]; simpl; [|done].
  destruct (Py.decode_utf8 (body obj)) as [text|]; [|done].
  destruct (json_loads text) as [[]|]; done.
Qed.

(** ** The membership test on the version list *)

Lemma any_version_unlisted version (vs : list json) :
  Forall (fun e => is_dict e = true /\ has_label version e = false) vs ->
  any_version version vs = Ok false.
Proof.
  induction 1 as [|e vs [Hd Hl] _ IH]; simpl; [done|].
  destruct e; try discriminate. simpl in Hl. by rewrite Hl.
Qed.

Lemma any_version_listed version (pre : list json) e post :
  Forall (fun e => is_dict e = true) pre ->
  has_label version e = true ->
  any_version version (pre ++ e :: post) = Ok true.
Proof.
  intros Hpre He. induction Hpre as [|x pre Hx _ IH]; simpl.
  - destruct e; try discriminate. simpl in He. by rewrite He.
  - destruct x; try discriminate.
    destruct (eq_str _ _); [done|exact IH].
Qed.

(** ** Runs of [prompts_create_version] and [prompts_list_versions] *)

Lemma create_version_disabled cfg agent_id version content note (w : world) :
  use_s3 cfg = false ->
  run (prompts_create_version cfg agent_id version content note) w
  = (Err config_required, w, []).
Proof. intros H. unfold prompts_create_version, _cfg. by rewrite H. Qed.

Lemma create_version_empty_label cfg agent_id content note (w : world) :
  use_s3 cfg = true ->
  run (prompts_create_version cfg agent_id EmptyString content note) w
  = (Err (ValueError "version is required"), w, []).
Proof. intros H. unfold prompts_create_version, _cfg. by rewrite H. Qed.

Lemma create_version_key_exists cfg agent_id version content note (w : world) :
  use_s3 cfg = true ->
  version <> EmptyString ->
  is_Some (objects w !! version_key_of cfg agent_id version) ->
  run (prompts_create_version cfg agent_id version content note) w
  = (Err (already_exists version), w, [CHead (version_key_of cfg agent_id version)]).
Proof.
  intros Hs3 Hv [o Ho]. unfold prompts_create_version, _cfg.
  rewrite Hs3. simpl. apply String.eqb_neq in Hv. rewrite Hv. simpl.
  by rewrite Ho.
Qed.

Lemma create_version_cases cfg agent_id version content note (w : world) :
  use_s3 cfg = true ->
  version <> EmptyString ->
  objects w !! version_key_of cfg agent_id version = None ->
  let w1 := put (version_key_of cfg agent_id version) content "text/plain" w in
  let pre := create_prefix_calls cfg agent_id version content w in
  run (prompts_create_version cfg agent_id version content note) w =
  match read_manifest (objects w !! manifest_key_of cfg agent_id) with
  | Ok (JDict d0) =>
      match any_version version (versions_of d0) with
      | Ok false =>
          let text :=
            json_dumps (JDict (appended d0 (new_entry version note (clock w)))) in
          (Ok (created cfg agent_id version),
           put (manifest_key_of cfg agent_id) text "application/json" w1,
           (pre ++ [CTime;
                    CPut (manifest_key_of cfg agent_id) (Py.encode_utf8 text)
                      "application/json"])%list)
      | Ok true => (Err (already_listed version), w1, pre)
      | Err e => (Err e, w1, pre)
      end
  | Ok _ => (Err TypeError, w1, pre)
  | Err e => (Err e, w1, pre)
  end.
Proof.
  intros Hs3 Hv Hfree w1 pre.
  rewrite create_version_run by done. fold w1 pre.
  rewrite load_manifest_read.
  destruct (read_manifest _) as [[| | | | |d0]|e]; try reflexivity.
  rewrite manifest_versions_defaults.
  destruct (any_version version (versions_of d0)) as [[|]|e]; reflexivity.
Qed.

Lemma list_versions_run cfg agent_id (w : world) :
  use_s3 cfg = true ->
  result_of (prompts_list_versions cfg agent_id) w
  = read_manifest (objects w !! manifest_key_of cfg agent_id)
  /\ world_after (prompts_list_versions cfg agent_id) w = w.
Proof.
  intros Hs3. unfold result_of, world_after, prompts_list_versions, _cfg.
  rewrite Hs3. simpl.
  destruct (objects w !! manifest_key_of cfg agent_id) as [o|] eqn:Ho; simpl.
  - unfold mbind, prog_bind. simpl. rewrite Ho.
    destruct (Py.decode_utf8 (body o)) as [text|]; simpl; [|done].
    destruct (json_loads text); done.
  - done.
Qed.

(** C3. Whatever [prompts_create_version] is called with, the [current]
    pointer of the manifest is left as it was.  A call that fails leaves the
    manifest object as it was; a call that succeeds writes a manifest whose
    [current] member is the one read ([manifest.get("current")]): a value
    that was there is kept, and a pointer that was absent (no manifest, or
    no [current] member) is absent, Python [None], afterwards. *)
Theorem create_version_current_untouched cfg agent_id version content note (w : world) :
  let p := prompts_create_version cfg agent_id version content note in
  let mkey := manifest_key_of cfg agent_id in
  match result_of p w with
  | Err _ => objects (world_after p w) !! mkey = objects w !! mkey
  | Ok _ =>
      exists d0 d1 : dict,
        read_manifest (objects w !! mkey) = Ok (JDict d0)
        /\ objects (world_after p w) !! mkey
           = Some (text_object (json_dumps (JDict d1)) "application/json")
        /\ dict_get "current" d1 = dict_get "current" d0
        /\ (forall c, dict_lookup "current" d0 = Some c ->
                      dict_lookup "current" d1 = Some c)
        /\ (dict_lookup "current" d0 = None ->
            dict_lookup "current" d1 = Some JNull)
  end.
Proof.
  intros p mkey. subst p. unfold result_of, world_after.
  destruct (use_s3 cfg) eqn:Hs3; [|by rewrite create_version_disabled].
  destruct (String.eqb version EmptyString) eqn:Hv.
  { apply String.eqb_eq in Hv; subst version.
    by rewrite create_version_empty_label. }
  apply String.eqb_neq in Hv.
  destruct (objects w !! version_key_of cfg agent_id version) as [o|] eqn:Hfree.
  { by rewrite create_version_key_exists by eauto. }
  rewrite create_version_cases by done.
  assert (Hput : objects (put (version_key_of cfg agent_id version) content
                            "text/plain" w) !! mkey = objects w !! mkey)
    by apply put_lookup_ne, version_key_ne_manifest_key.
  destruct (read_manifest (objects w !! manifest_key_of cfg agent_id))
    as [[| | | | |d0]|e] eqn:Hread; simpl; try exact Hput.
  destruct (any_version version (versions_of d0)) as [[|]|e]; simpl; try exact Hput.
  exists d0, (appended d0 (new_entry version note (clock w))).
  split; [done|]. split; [apply lookup_insert_eq|].
  pose proof (appended_current d0 (new_entry version note (clock w))) as Hc.
  split; [by unfold dict_get at 1; rewrite Hc|].
  split.
  - intros c Hd0. rewrite Hc. unfold dict_get. by rewrite Hd0.
  - intros Hd0. rewrite Hc. unfold dict_get. by rewrite Hd0.
Qed.

Lemma versions_of_nonempty_present (w : world) key (d0 : dict) pre e post :
  read_manifest (objects w !! key) = Ok (JDict d0) ->
  versions_of d0 = (pre ++ e :: post)%list ->
  is_Some (objects w !! key).
Proof.
  intros Hread Hvs. destruct (objects w !! key); [eauto|].
  simpl in Hread. injection Hread as <-. by destruct pre.
Qed.

(** C5. With the backend enabled, [prompts_create_version] raises
    [ValueError] for an empty label, raises the key-level
    [RuntimeError] ("already exists") when the version's key is in the
    store, and, when the key is free but an entry of the manifest carries
    the label, raises the manifest-level [RuntimeError] ("already listed"):
    the second check reads the manifest, not the key. *)
Theorem create_version_rejections cfg agent_id version content note (w : world) :
  use_s3 cfg = true ->
  let p := prompts_create_version cfg agent_id version content note in
  result_of (prompts_create_version cfg agent_id EmptyString content note) w
  = Err (ValueError "version is required")
  /\ (version <> EmptyString ->
      is_Some (objects w !! version_key_of cfg agent_id version) ->
      result_of p w = Err (already_exists version))
  /\ (version <> EmptyString ->
      objects w !! version_key_of cfg agent_id version = None ->
      forall (d0 : dict) pre e post,
        read_manifest (objects w !! manifest_key_of cfg agent_id) = Ok (JDict d0) ->
        versions_of d0 = (pre ++ e :: post)%list ->
        Forall (fun x => is_dict x = true) pre ->
        has_label version e = true ->
        result_of p w = Err (already_listed version)).
Proof.
  intros Hs3 p. subst p. unfold result_of. split; [|split].
  - by rewrite create_version_empty_label.
  - intros Hv Hex. by rewrite create_version_key_exists.
  - intros Hv Hfree d0 pre e post Hread Hvs Hpre He.
    rewrite create_version_cases by done. rewrite Hread, Hvs.
    by rewrite any_version_listed.
Qed.

(** C10. When the version's key is free but the label is listed in the
    manifest, [prompts_create_version] has already written the version
    object when it raises "already listed": the calls made are the
    existence check, the put of the version, the existence check and the
    read of the manifest; afterwards the store holds the new version object
    and the manifest it had. *)
Theorem create_version_not_atomic cfg agent_id version content note (w : world)
    (d0 : dict) pre e post :
  use_s3 cfg = true ->
  version <> EmptyString ->
  objects w !! version_key_of cfg agent_id version = None ->
  read_manifest (objects w !! manifest_key_of cfg agent_id) = Ok (JDict d0) ->
  versions_of d0 = (pre ++ e :: post)%list ->
  Forall (fun x => is_dict x = true) pre ->
  has_label version e = true ->
  let p := prompts_create_version cfg agent_id version content note in
  let vkey := version_key_of cfg agent_id version in
  let mkey := manifest_key_of cfg agent_id in
  result_of p w = Err (already_listed version)
  /\ calls_of p w = [CHead vkey; CPut vkey content "text/plain"; CHead mkey; CGet mkey]
  /\ world_after p w = put vkey content "text/plain" w
  /\ objects (world_after p w) !! vkey = Some (text_object content "text/plain")
  /\ objects (world_after p w) !! mkey = objects w !! mkey.
Proof.
  intros Hs3 Hv Hfree Hread Hvs Hpre He p vkey mkey. subst p.
  unfold result_of, calls_of, world_after.
  rewrite create_version_cases by done. rewrite Hread, Hvs.
  rewrite any_version_listed by done. simpl.
  destruct (versions_of_nonempty_present w _ d0 pre e post Hread Hvs) as [o Ho].
  unfold create_prefix_calls. rewrite Ho. simpl.
  repeat split.
  - apply lookup_insert_eq.
  - apply lookup_insert_ne, version_key_ne_manifest_key.
Qed.

(** C7. [prompts_create_version] starts from the empty manifest when
    [versions.json] is absent; when it is present and holds an object, a
    [versions] member that is missing or is not a list counts as the empty
    list and a missing [current] member as [None], every other member being
    kept.  [prompts_list_versions] returns the stored manifest, or the empty
    manifest when there is none. *)
Theorem manifest_tolerance cfg agent_id version content note (w : world) :
  use_s3 cfg = true ->
  version <> EmptyString ->
  objects w !! version_key_of cfg agent_id version = None ->
  let p := prompts_create_version cfg agent_id version content note in
  let q := prompts_list_versions cfg agent_id in
  let mkey := manifest_key_of cfg agent_id in
  let entry := new_entry version note (clock w) in
  (objects w !! mkey = None ->
   result_of p w = Ok (created cfg agent_id version)
   /\ objects (world_after p w) !! mkey
      = Some (text_object
                (json_dumps (JDict [("versions", JList [entry]); ("current", JNull)]))
                "application/json")
   /\ result_of q w = Ok (JDict [("versions", JList []); ("current", JNull)]))
  /\ (forall o text m,
        objects w !! mkey = Some o ->
        Py.decode_utf8 (body o) = Some text ->
        json_loads text = Some m ->
        result_of q w = Ok m)
  /\ (forall d0 : dict,
        read_manifest (objects w !! mkey) = Ok (JDict d0) ->
        Forall (fun x => is_dict x = true /\ has_label version x = false)
          (versions_of d0) ->
        exists d1 : dict,
          result_of p w = Ok (created cfg agent_id version)
          /\ objects (world_after p w) !! mkey
             = Some (text_object (json_dumps (JDict d1)) "application/json")
          /\ dict_lookup "versions" d1 = Some (JList (versions_of d0 ++ [entry]))
          /\ dict_lookup "current" d1 = Some (dict_get "current" d0)
          /\ (forall k, k <> "versions" -> k <> "current" ->
                        dict_lookup k d1 = dict_lookup k d0)
          /\ (dict_lookup "versions" d0 = None -> versions_of d0 = [])
          /\ (forall x, dict_lookup "versions" d0 = Some x -> is_list x = false ->
                        versions_of d0 = [])
          /\ (forall l, dict_lookup "versions" d0 = Some (JList l) ->
                        versions_of d0 = l)
          /\ (dict_lookup "current" d0 = None -> dict_get "current" d0 = JNull)).
Proof.
  intros Hs3 Hv Hfree p q mkey entry. subst p q.
  destruct (list_versions_run cfg agent_id w Hs3) as [Hq _]. fold mkey in Hq.
  split; [|split].
  - intros Hnone. rewrite Hq. unfold result_of, world_after.
    rewrite create_version_cases by done. fold mkey.
    rewrite Hnone. simpl. split; [done|]. split; [|done].
    apply lookup_insert_eq.
  - intros o text m Ho Hd Hl. rewrite Hq, Ho. simpl. by rewrite Hd, Hl.
  - intros d0 Hread Hok. exists (appended d0 entry).
    unfold result_of, world_after.
    rewrite create_version_cases by done. fold mkey. rewrite Hread.
    rewrite any_version_unlisted by done. simpl.
    split; [done|]. split; [apply lookup_insert_eq|].
    split; [apply appended_versions|]. split; [apply appended_current|].
    split; [intros; by apply appended_other|].
    unfold versions_of, dict_get. repeat split.
    + by intros ->.
    + intros x -> Hx. by destruct x.
    + by intros l ->.
    + by intros ->.
Qed.

Lemma get_text_run cfg key (w : world) o :
  objects w !! key = Some o ->
  result_of (_s3_get_text cfg key) w
  = match Py.decode_utf8 (body o) with
    | Some text => Ok text
    | None => Err UnicodeDecodeError
    end.
Proof.
  intros Ho. unfold result_of, _s3_get_text. simpl. rewrite Ho.
  by destruct (Py.decode_utf8 (body o)).
Qed.

(** C4. For a non-empty label that is unused (no object at the version's
    key, no entry of the manifest carrying it), a text [content], and a
    manifest that is absent or an object whose entries are objects:
    [prompts_create_version] succeeds; reading the version's key afterwards
    gives [content]; [prompts_list_versions] afterwards returns a manifest
    whose version list ends with the entry of that label and whose
    [current] is the one [prompts_list_versions] gave before ([None] if it
    was absent).  The manifest written is assumed to survive the JSON
    library's round trip. *)
Theorem create_version_then_read cfg agent_id version content note (w : world)
    (d0 : dict) :
  use_s3 cfg = true ->
  version <> EmptyString ->
  Py.utf8_valid content = true ->
  objects w !! version_key_of cfg agent_id version = None ->
  result_of (prompts_list_versions cfg agent_id) w = Ok (JDict d0) ->
  Forall (fun x => is_dict x = true /\ has_label version x = false) (versions_of d0) ->
  readable (JDict (appended d0 (new_entry version note (clock w)))) ->
  let p := prompts_create_version cfg agent_id version content note in
  let w' := world_after p w in
  result_of p w = Ok (created cfg agent_id version)
  /\ result_of (_s3_get_text cfg (version_key_of cfg agent_id version)) w' = Ok content
  /\ exists d1 : dict,
       result_of (prompts_list_versions cfg agent_id) w' = Ok (JDict d1)
       /\ dict_lookup "versions" d1
          = Some (JList (versions_of d0 ++ [new_entry version note (clock w)]))
       /\ has_label version (new_entry version note (clock w)) = true
       /\ dict_get "current" d1 = dict_get "current" d0.
Proof.
  intros Hs3 Hv Hc Hfree Hq Hok [Hdec Hload] p w'. subst w' p.
  destruct (list_versions_run cfg agent_id w Hs3) as [Hq' _]. rewrite Hq' in Hq.
  unfold result_of at 1, world_after.
  rewrite create_version_cases by done. rewrite Hq.
  rewrite any_version_unlisted by done. simpl.
  set (w' := put _ _ _ _).
  split; [done|]. split.
  - erewrite get_text_run.
    2:{ subst w'. unfold put; simpl.
        rewrite lookup_insert_ne
          by (apply not_eq_sym, version_key_ne_manifest_key).
        apply lookup_insert_eq. }
    simpl. unfold Py.decode_utf8. by rewrite Hc.
  - exists (appended d0 (new_entry version note (clock w))).
    destruct (list_versions_run cfg agent_id w' Hs3) as [-> _].
    subst w'. unfold put at 1; simpl. rewrite lookup_insert_eq. simpl.
    unfold Py.encode_utf8 in Hdec. rewrite Hdec, Hload.
    split; [done|]. split; [apply appended_versions|]. split.
    + simpl. apply String.eqb_refl.
    + unfold dict_get at 1. by rewrite appended_current.
Qed.

(** ** Strings *)

Lemma prefix_append (p x : string) : String.prefix p (p +:+ x) = true.
Proof.
  induction p as [|c p IH]; simpl; [by destruct x|].
  destruct (ascii_dec c c); [exact IH|done].
Qed.

Lemma slice_from_append (p x : string) : Py.slice_from (String.length p) (p +:+ x) = x.
Proof. induction p as [|c p IH]; simpl; [by destruct x|exact IH]. Qed.

Lemma length_append (s t : string) :
  String.length (s +:+ t) = (String.length s + String.length t)%nat.
Proof. induction s as [|c s IH]; simpl; [done|by rewrite IH]. Qed.

Lemma substring_last (s : string) :
  String.substring (String.length s) 1 (s +:+ "/") = "/".
Proof. induction s as [|c s IH]; simpl; [done|exact IH]. Qed.

Lemma endswith_slash (s : string) : Py.endswith (s +:+ "/") "/" = true.
Proof.
  unfold Py.endswith. rewrite length_append.
  replace (String.length s + String.length "/" - String.length "/")%nat
    with (String.length s) by lia.
  change (String.length "/") with 1%nat. rewrite substring_last.
  apply andb_true_iff. split; [apply Nat.leb_le; lia|done].
Qed.

Lemma child_names_three (prefix x y : string) :
  child_names prefix [prefix +:+ x; prefix +:+ y]
  = [Py.rstrip "/" x; Py.rstrip "/" y].
Proof.
  unfold child_names, Py.startswith. simpl.
  rewrite !prefix_append. simpl. by rewrite !slice_from_append.
Qed.

Lemma child_names_one (prefix x : string) :
  child_names prefix [prefix +:+ x] = [Py.rstrip "/" x].
Proof.
  unfold child_names, Py.startswith. simpl.
  rewrite !prefix_append. simpl. by rewrite !slice_from_append.
Qed.

(** ** Listing *)

Lemma one_level_pages cfg (prefix cursor : string) (w : world) :
  cursor <> EmptyString ->
  Py.endswith prefix "/" = true ->
  three_children (objects w) prefix cursor ->
  lists_in_two_pages
    (fun limit token =>
       resp ← _list_common_prefixes cfg prefix limit token;
       Ret (id_page_of prefix resp))
    prefix cursor w.
Proof.
  intros Hc Hp [[contents1 H1] [contents2 [next H2]]].
  unfold one_level_request in *.
  apply String.eqb_neq in Hc.
  exists {| ip_ids := ["a"; "b"];
            ip_prefixes := [prefix +:+ "a/"; prefix +:+ "b/"];
            ip_next_continuation_token := Some cursor;
            ip_is_truncated := true |},
         {| ip_ids := ["c"];
            ip_prefixes := [prefix +:+ "c/"];
            ip_next_continuation_token := next;
            ip_is_truncated := false |}.
  unfold _list_common_prefixes, _ensure_trailing_slash.
  rewrite Hp. change (Py.clamp_limit 2) with 2%Z. simpl.
  unfold truthy. rewrite H1, Hc, H2. simpl. unfold id_page_of. simpl.
  rewrite child_names_three, child_names_one. simpl.
  repeat split; reflexivity.
Qed.

Lemma append_cons (x : ascii) (a b : string) : String x a +:+ b = String x (a +:+ b).
Proof. reflexivity. Qed.

Lemma append_assoc (a b c : string) : (a +:+ b) +:+ c = a +:+ (b +:+ c).
Proof. induction a as [|x a IH]; [done|]. rewrite !append_cons. by f_equal. Qed.

Lemma sessions_root_slash cfg : Py.endswith (_sessions_root cfg) "/" = true.
Proof.
  unfold _sessions_root, _ensure_trailing_slash.
  destruct (Py.endswith (sessions_prefix cfg) "/") eqn:E; [done|].
  apply endswith_slash.
Qed.

Lemma agents_prefix_slash (root session_id : string) :
  Py.endswith (root +:+ session_id +:+ "/agents/") "/" = true.
Proof.
  change "/agents/" with ("/agents" +:+ "/").
  rewrite <- !append_assoc. apply endswith_slash.
Qed.

Lemma sessions_list_enabled cfg limit token :
  use_s3 cfg = true ->
  (sessions_list cfg limit token : prog id_page)
  = (resp ← _list_common_prefixes cfg (_sessions_root cfg) limit token;
     Ret (id_page_of (_sessions_root cfg) resp)).
Proof. intros H. unfold sessions_list, _cfg. by rewrite H. Qed.

Lemma sessions_list_agents_enabled cfg session_id limit token :
  use_s3 cfg = true ->
  (sessions_list_agents cfg session_id limit token : prog id_page)
  = (resp ← _list_common_prefixes cfg
              (_sessions_root cfg +:+ session_id +:+ "/agents/") limit token;
     Ret (id_page_of (_sessions_root cfg +:+ session_id +:+ "/agents/") resp)).
Proof. intros H. unfold sessions_list_agents, _cfg. by rewrite H. Qed.

(** C6. Over a store that lists the children [a/], [b/], [c/] of the
    sessions root in pages of two, [sessions_list] with limit 2 returns the
    bare names [a], [b], the truncation flag and the store's cursor; called
    again with that cursor it returns [c] and no truncation; the two pages
    together are [a], [b], [c].  Each page is one listing call, with the
    delimiter, the limit and the cursor as given.  [sessions_list_agents]
    does the same under [<root><session_id>/agents/]. *)
Theorem listing_in_pages cfg session_id cursor (w : world) :
  use_s3 cfg = true ->
  cursor <> EmptyString ->
  (three_children (objects w) (_sessions_root cfg) cursor ->
   lists_in_two_pages (sessions_list cfg) (_sessions_root cfg) cursor w)
  /\ (three_children (objects w)
        (_sessions_root cfg +:+ session_id +:+ "/agents/") cursor ->
      lists_in_two_pages (sessions_list_agents cfg session_id)
        (_sessions_root cfg +:+ session_id +:+ "/agents/") cursor w).
Proof.
  intros Hs3 Hc. split; intros H3.
  - pose proof (one_level_pages cfg _ cursor w Hc (sessions_root_slash cfg) H3) as H.
    unfold lists_in_two_pages in *.
    destruct H as (page1 & page2 & H). exists page1, page2.
    by rewrite !sessions_list_enabled.
  - pose proof (one_level_pages cfg _ cursor w Hc
                  (agents_prefix_slash (_sessions_root cfg) session_id) H3) as H.
    unfold lists_in_two_pages in *.
    destruct H as (page1 & page2 & H). exists page1, page2.
    by rewrite !sessions_list_agents_enabled.
Qed.

(** ** The namespace check and the raw fetch *)

Lemma sessions_get_raw_run cfg s3_key (w : world) :
  use_s3 cfg = true ->
  Py.startswith s3_key (_sessions_root cfg) = true ->
  run (sessions_get_raw cfg s3_key) w
  = (match objects w !! s3_key with
     | None => Err (ClientError "NoSuchKey")
     | Some o =>
         match Py.decode_utf8 (body o) with
         | None => Err UnicodeDecodeError
         | Some text =>
             match json_loads text with
             | Some v => Ok (RawJson s3_key v)
             | None => Ok (RawText s3_key text)
             end
         end
     end, w, [CGet s3_key]).
Proof.
  intros Hs3 Hp. unfold sessions_get_raw, _cfg. rewrite Hs3. simpl.
  rewrite Hp. simpl. destruct (objects w !! s3_key) as [o|]; [|done].
  destruct (Py.decode_utf8 (body o)) as [text|]; simpl; [|done].
  by destruct (json_loads text).
Qed.

Lemma metrics_get_run cfg s3_key (w : world) :
  use_s3 cfg = true ->
  Py.startswith s3_key (metrics_prefix cfg) = true ->
  calls_of (metrics_get cfg s3_key) w = [CGet s3_key].
Proof.
  intros Hs3 Hp. unfold calls_of, metrics_get, _cfg. rewrite Hs3. simpl.
  rewrite Hp. simpl. unfold mbind, prog_bind. simpl.
  destruct (objects w !! s3_key) as [o|]; [|done].
  destruct (Py.decode_utf8 (body o)) as [text|]; simpl; [|done].
  by destruct (json_loads text).
Qed.

(** C2 (as the code has it). The check is [startswith] on the key as
    given: a key that does not start with the sessions root (the sessions
    prefix with one trailing slash), or with the metrics prefix for
    [metrics_get], is refused with [ValueError] and no call reaches the
    store; a key that starts with it is the key of the single [get_object]
    made, unchanged. *)
Theorem namespace_check cfg s3_key (w : world) :
  use_s3 cfg = true ->
  (Py.startswith s3_key (_sessions_root cfg) = false ->
   run (sessions_get_raw cfg s3_key) w
   = (Err (ValueError "s3_key must be under sessions prefix"), w, []))
  /\ (Py.startswith s3_key (_sessions_root cfg) = true ->
      calls_of (sessions_get_raw cfg s3_key) w = [CGet s3_key])
  /\ (Py.startswith s3_key (metrics_prefix cfg) = false ->
      run (metrics_get cfg s3_key) w
      = (Err (ValueError "s3_key must be under metrics prefix"), w, []))
  /\ (Py.startswith s3_key (metrics_prefix cfg) = true ->
      calls_of (metrics_get cfg s3_key) w = [CGet s3_key]).
Proof.
  intros Hs3. repeat split.
  - intros Hp. unfold sessions_get_raw, _cfg. rewrite Hs3. simpl. by rewrite Hp.
  - intros Hp. unfold calls_of. by rewrite sessions_get_raw_run.
  - intros Hp. unfold metrics_get, _cfg. rewrite Hs3. simpl. by rewrite Hp.
  - intros Hp. by apply metrics_get_run.
Qed.

(** C8 (as the code has it). For a key under the sessions root,
    [sessions_get_raw] returns the parsed value when the object is text
    that [json.loads] accepts and the text itself when it is text that
    [json.loads] refuses; it raises for a missing key and for an object
    whose bytes are not UTF-8. *)
Theorem fetch_raw cfg s3_key (w : world) :
  use_s3 cfg = true ->
  Py.startswith s3_key (_sessions_root cfg) = true ->
  result_of (sessions_get_raw cfg s3_key) w
  = match objects w !! s3_key with
    | None => Err (ClientError "NoSuchKey")
    | Some o =>
        match Py.decode_utf8 (body o) with
        | None => Err UnicodeDecodeError
        | Some text =>
            match json_loads text with
            | Some v => Ok (RawJson s3_key v)
            | None => Ok (RawText s3_key text)
            end
        end
    end.
Proof.
  intros Hs3 Hp. unfold result_of. by rewrite sessions_get_raw_run.
Qed.

Lemma run_returning {A : Type} (f : A -> tool_value) (p : prog A) (w : world) v w' t :
  run p w = (Ok v, w', t) -> run (returning f p) w = (Ok (f v), w', t).
Proof.
  intros H. unfold returning, mbind, prog_bind. rewrite run_bind, H. simpl.
  by rewrite app_nil_r.
Qed.

(** C9 (as the code has it). With the backend disabled, every tool
    whose body starts with [_cfg()] raises the configuration error and
    makes no call.  The five tools that hand the request to the registry or
    the prompt manager make no check of their own: when the library's
    method returns a value, the tool returns it. *)
Theorem disabled_backend cfg (t : tool) (w : world) :
  use_s3 cfg = false ->
  (starts_with_cfg t = true ->
   run (call_tool cfg t) w = (Err config_required, w, []))
  /\ (forall tag v w' c,
        run (AgentRegistry_list_agents cfg tag) w = (Ok v, w', c) ->
        run (call_tool cfg (registry_list_agents_tool tag)) w = (Ok (VJsonList v), w', c))
  /\ (forall agent_id v w' c,
        run (AgentRegistry_get_agent cfg agent_id) w = (Ok v, w', c) ->
        run (call_tool cfg (registry_get_agent_tool agent_id)) w
        = (Ok (VJsonOpt v), w', c))
  /\ (forall agent_id description tags repo_url owner environment model_id v w' c,
        run (AgentRegistry_update_agent cfg agent_id description tags repo_url owner
               environment model_id) w = (Ok v, w', c) ->
        run (call_tool cfg
               (registry_update_metadata_tool agent_id description tags repo_url
                  owner environment model_id)) w
        = (Ok (VJsonOpt v), w', c))
  /\ (forall agent_id force_refresh v w' c,
        run (S3PromptManager_get_current cfg agent_id force_refresh) w = (Ok v, w', c) ->
        run (call_tool cfg (prompts_get_current_tool agent_id force_refresh)) w
        = (Ok (VText v), w', c))
  /\ (forall agent_id version v w' c,
        run (S3PromptManager_get_version cfg agent_id version) w = (Ok v, w', c) ->
        run (call_tool cfg (prompts_get_version_tool agent_id version)) w
        = (Ok (VText v), w', c)).
Proof.
  intros Hs3. split.
  - destruct t; try discriminate; intros _;
      unfold call_tool, returning, hub_status, prompts_list_versions,
        prompts_create_version, metrics_list, metrics_get, sessions_list,
        sessions_get_session_json, sessions_list_agents, sessions_get_agent_json,
        sessions_list_messages, sessions_get_message_json, sessions_get_raw, _cfg;
      by rewrite Hs3.
  - repeat split; intros; by apply run_returning.
Qed.

(** ** Calls one after the other *)

Lemma append_inv_tail (a b t : string) : a +:+ t = b +:+ t -> a = b.
Proof.
  revert b. induction a as [|x a IH]; intros [|y b] H.
  - done.
  - apply (f_equal String.length) in H. rewrite !length_append in H.
    simpl in H. lia.
  - apply (f_equal String.length) in H. rewrite !length_append in H.
    simpl in H. lia.
  - rewrite !append_cons in H. injection H as -> H. f_equal. by apply IH.
Qed.

Lemma version_key_inj cfg agent_id version version' :
  version_key_of cfg agent_id version = version_key_of cfg agent_id version' ->
  version = version'.
Proof.
  unfold version_key_of. intros H. do 3 apply append_inv_head in H.
  by apply append_inv_tail in H.
Qed.

Lemma filter_unlisted version (vs : list json) :
  Forall (fun x => is_dict x = true /\ has_label version x = false) vs ->
  List.filter (has_label version) vs = [].
Proof. induction 1 as [|x vs [_ Hx] _ IH]; simpl; [done|]. by rewrite Hx. Qed.

Lemma has_label_new_entry version version' note (now : number) :
  has_label version' (new_entry version note now) = String.eqb version version'.
Proof. reflexivity. Qed.

Lemma create_version_fresh cfg agent_id version content note (w : world) (d0 : dict) :
  use_s3 cfg = true ->
  version <> EmptyString ->
  objects w !! version_key_of cfg agent_id version = None ->
  read_manifest (objects w !! manifest_key_of cfg agent_id) = Ok (JDict d0) ->
  Forall (fun x => is_dict x = true /\ has_label version x = false) (versions_of d0) ->
  let p := prompts_create_version cfg agent_id version content note in
  let d1 := appended d0 (new_entry version note (clock w)) in
  result_of p w = Ok (created cfg agent_id version)
  /\ objects (world_after p w)
     = <[manifest_key_of cfg agent_id
         := text_object (json_dumps (JDict d1)) "application/json"]>
         (<[version_key_of cfg agent_id version := text_object content "text/plain"]>
            (objects w))
  /\ calls_of p w
     = (create_prefix_calls cfg agent_id version content w
        ++ [CTime;
            CPut (manifest_key_of cfg agent_id) (json_dumps (JDict d1))
              "application/json"])%list.
Proof.
  intros Hs3 Hv Hfree Hread Hok p d1. subst p d1.
  unfold result_of, world_after, calls_of.
  rewrite create_version_cases by done. rewrite Hread.
  by rewrite any_version_unlisted.
Qed.

Lemma readable_read (w : world) key (d : dict) :
  readable (JDict d) ->
  objects w !! key = Some (text_object (json_dumps (JDict d)) "application/json") ->
  read_manifest (objects w !! key) = Ok (JDict d).
Proof.
  intros [Hdec Hload] ->. unfold read_manifest, text_object. cbn [body].
  by rewrite Hdec, Hload.
Qed.

Lemma versions_of_appended (d : dict) entry :
  versions_of (appended d entry) = (versions_of d ++ [entry])%list.
Proof. unfold versions_of at 1. by rewrite appended_versions. Qed.

Lemma run_all_distinct cfg agent_id (reqs : list request) :
  use_s3 cfg = true ->
  forall (w : world) (d0 : dict),
    read_manifest (objects w !! manifest_key_of cfg agent_id) = Ok (JDict d0) ->
    NoDup (List.map rq_version reqs) ->
    Forall (fresh_in cfg agent_id w d0) reqs ->
    Forall (fun d => readable (JDict d)) (manifests_after d0 reqs) ->
    (run_all cfg agent_id reqs w).1
    = List.map (fun r => Ok (created cfg agent_id (rq_version r))) reqs
    /\ read_manifest (objects (run_all cfg agent_id reqs w).2 !! manifest_key_of cfg agent_id)
       = Ok (JDict (manifest_after d0 reqs))
    /\ versions_of (manifest_after d0 reqs)
       = (versions_of d0 ++ List.map entry_of reqs)%list.
Proof.
  intros Hs3. induction reqs as [|r rest IH]; intros w d0 Hread Hnd Hfresh Hrd.
  - simpl. by rewrite app_nil_r.
  - apply NoDup_cons in Hnd as [Hr Hnd].
    apply Forall_cons in Hfresh as [(Hv & Hfree & Hok) Hfresh].
    simpl in Hrd. apply Forall_cons in Hrd as [Hrd1 Hrd].
    set (w0 := later w (rq_time r)).
    destruct (create_version_fresh cfg agent_id (rq_version r) (rq_content r)
                (rq_note r) w0 d0 Hs3 Hv Hfree Hread Hok) as (Hres & Hw & _).
    cbv zeta in Hres, Hw. change (clock w0) with (rq_time r) in Hw.
    fold (entry_of r) in Hw.
    set (p := prompts_create_version cfg agent_id (rq_version r) (rq_content r)
                (rq_note r)) in *.
    specialize (IH (world_after p w0) (appended d0 (entry_of r))).
    destruct IH as (IH1 & IH2 & IH3); [| done | | done |].
    + apply readable_read; [done|]. rewrite Hw. apply lookup_insert_eq.
    + apply Forall_forall. intros r' Hin.
      rewrite Forall_forall in Hfresh.
      destruct (Hfresh r' Hin) as (Hv' & Hfree' & Hok').
      assert (Hne : rq_version r <> rq_version r').
      { intros Heq. apply Hr. rewrite Heq. apply list_elem_of_In in Hin.
        apply list_elem_of_In. by apply in_map. }
      split; [done|]. split.
      * rewrite Hw. rewrite lookup_insert_ne
          by (apply not_eq_sym, version_key_ne_manifest_key).
        rewrite lookup_insert_ne; [done|].
        intros H. by apply version_key_inj in H.
      * rewrite versions_of_appended. apply Forall_app. split; [done|].
        apply Forall_cons. split; [|done]. split; [done|].
        unfold entry_of. rewrite has_label_new_entry. by apply String.eqb_neq.
    + simpl. fold w0 p. destruct (run_all cfg agent_id rest (world_after p w0))
        as [outs w'] eqn:E. simpl in *. rewrite Hres, IH1.
      split; [done|]. split; [exact IH2|].
      unfold manifest_after in *. simpl. rewrite IH3, versions_of_appended.
      by rewrite <- app_assoc.
Qed.

(** Calls made one after the other, on a manifest that is absent or an
    object: the first call with an unused label succeeds, a later one with
    the same label is refused and changes nothing; calls with pairwise
    distinct unused labels all succeed and all their entries are listed. *)
Lemma create_version_one_by_one cfg agent_id (w : world) (d0 : dict) :
  use_s3 cfg = true ->
  read_manifest (objects w !! manifest_key_of cfg agent_id) = Ok (JDict d0) ->
  let mkey := manifest_key_of cfg agent_id in
  (forall version content note content2 note2 (now2 : number),
     version <> EmptyString ->
     objects w !! version_key_of cfg agent_id version = None ->
     Forall (fun x => is_dict x = true /\ has_label version x = false)
       (versions_of d0) ->
     let first := prompts_create_version cfg agent_id version content note in
     let second := prompts_create_version cfg agent_id version content2 note2 in
     let w1 := later (world_after first w) now2 in
     let entry := new_entry version note (clock w) in
     result_of first w = Ok (created cfg agent_id version)
     /\ (exists calls,
           calls_of first w
           = (calls ++ [CPut mkey (json_dumps (JDict (appended d0 entry)))
                          "application/json"])%list)
     /\ result_of second w1 = Err (already_exists version)
     /\ objects (world_after second w1) = objects w1
     /\ exists (d1 : dict) vs,
          objects (world_after second w1) !! mkey
          = Some (text_object (json_dumps (JDict d1)) "application/json")
          /\ dict_lookup "versions" d1 = Some (JList vs)
          /\ List.length (List.filter (has_label version) vs) = 1%nat)
  /\ (forall reqs : list request,
        NoDup (List.map rq_version reqs) ->
        Forall (fresh_in cfg agent_id w d0) reqs ->
        Forall (fun d => readable (JDict d)) (manifests_after d0 reqs) ->
        (run_all cfg agent_id reqs w).1
        = List.map (fun r => Ok (created cfg agent_id (rq_version r))) reqs
        /\ read_manifest (objects (run_all cfg agent_id reqs w).2 !! mkey)
           = Ok (JDict (manifest_after d0 reqs))
        /\ versions_of (manifest_after d0 reqs)
           = (versions_of d0 ++ List.map entry_of reqs)%list).
Proof.
  intros Hs3 Hread mkey. split.
  - intros version content note content2 note2 now2 Hv Hfree Hok first second w1 entry.
    destruct (create_version_fresh cfg agent_id version content note w d0
                Hs3 Hv Hfree Hread Hok) as (Hres & Hw & Hcalls).
    cbv zeta in Hres, Hw, Hcalls. fold first entry mkey in Hres, Hw, Hcalls.
    split; [exact Hres|]. split.
    { exists (create_prefix_calls cfg agent_id version content w ++ [CTime])%list.
      rewrite Hcalls. by rewrite <- app_assoc. }
    assert (Hex : is_Some (objects w1 !! version_key_of cfg agent_id version)).
    { subst w1. unfold later. cbn [objects]. rewrite Hw.
      rewrite lookup_insert_ne by (apply not_eq_sym, version_key_ne_manifest_key).
      rewrite lookup_insert_eq. eauto. }
    subst second. unfold result_of, world_after.
    rewrite create_version_key_exists by done. cbn [fst snd].
    split; [done|]. split; [done|].
    exists (appended d0 entry), (versions_of d0 ++ [entry])%list.
    split; [subst w1; unfold later; cbn [objects]; rewrite Hw; apply lookup_insert_eq|].
    split; [apply appended_versions|].
    rewrite List.filter_app, filter_unlisted by done. simpl.
    by rewrite String.eqb_refl.
  - intros reqs Hnd Hfresh Hrd. by apply run_all_distinct.
Qed.

(** ** One caller, call by call *)

Lemma steps_run {A : Type} (p : prog A) (w : world) :
  steps (List.length (calls_of p w)) p w = (lift (result_of p w), world_after p w).
Proof.
  unfold calls_of, result_of, world_after.
  revert w; induction p as [a|e|key k IH|key k IH|key data ctype k IH|req k IH|k IH];
    intros w; simpl; try reflexivity.
  - specialize (IH (bool_decide (is_Some (objects w !! key))) w).
    destruct (run (k _) w) as [[r w'] t]. exact IH.
  - destruct (objects w !! key) as [o|] eqn:E; simpl; [|by rewrite E].
    specialize (IH (body o) w). destruct (run (k _) w) as [[r w'] t].
    simpl. by rewrite E.
  - specialize (IH (put key data ctype w)).
    destruct (run k _) as [[r w'] t]. exact IH.
  - specialize (IH (list_objects_v2 (objects w) req) w).
    destruct (run (k _) w) as [[r w'] t]. exact IH.
  - specialize (IH (clock w) w). destruct (run (k _) w) as [[r w'] t]. exact IH.
Qed.

Lemma interleave_alone {A : Type} (n : nat) (p : prog A) (w : world) :
  interleave (replicate n 0%nat) [p] w = ([(steps n p w).1], (steps n p w).2).
Proof.
  revert p w. induction n as [|n IH]; intros p w; simpl; [done|].
  destruct (step p w) as [p' w']. apply IH.
Qed.

(** ** Several callers with one label *)

Lemma create_version_stages cfg agent_id version content note :
  use_s3 cfg = true ->
  version <> EmptyString ->
  (prompts_create_version cfg agent_id version content note : prog create_result)
  = HeadObject (version_key_of cfg agent_id version) (fun ex : bool =>
      if ex then Raise (already_exists version)
      else write_version cfg agent_id version content note).
Proof.
  intros Hs3 Hv. unfold prompts_create_version, _cfg. rewrite Hs3.
  apply String.eqb_neq in Hv. cbn [negb]. unfold mbind, prog_bind. cbn [bind].
  rewrite Hv. reflexivity.
Qed.

Section Callers.

Variables (cfg : HubConfig) (agent_id version : string) (w0 : world) (d0 : dict).
Variable callers : list (string * option string).

Hypothesis Hs3 : use_s3 cfg = true.
Hypothesis Hv : version <> EmptyString.
Hypothesis Hread0 :
  read_manifest (objects w0 !! manifest_key_of cfg agent_id) = Ok (JDict d0).
Hypothesis Hfresh :
  Forall (fun x => is_dict x = true /\ has_label version x = false) (versions_of d0).
Hypothesis Hreadable :
  Forall (fun c => readable (JDict (appended d0 (new_entry version c.2 (clock w0)))))
    callers.

#[local] Abbreviation vkey := (version_key_of cfg agent_id version).
#[local] Abbreviation mkey := (manifest_key_of cfg agent_id).
#[local] Abbreviation thread := (stage_prog cfg agent_id version d0 (clock w0)).
#[local] Abbreviation written := (manifest_written cfg agent_id version d0 (clock w0) callers).
#[local] Abbreviation seen := (stage_ok cfg agent_id version d0 (clock w0) callers).
#[local] Abbreviation inv := (callers_inv cfg agent_id version w0 d0 callers).

Lemma written_one_entry (w : world) :
  written w ->
  exists (d1 : dict) vs,
    objects w !! mkey = Some (text_object (json_dumps (JDict d1)) "application/json")
    /\ dict_lookup "versions" d1 = Some (JList vs)
    /\ List.length (List.filter (has_label version) vs) = 1%nat.
Proof.
  intros (c & _ & Hc).
  exists (appended d0 (new_entry version c.2 (clock w0))),
    (versions_of d0 ++ [new_entry version c.2 (clock w0)])%list.
  split; [exact Hc|]. split; [apply appended_versions|].
  rewrite List.filter_app, filter_unlisted by done. simpl.
  by rewrite String.eqb_refl.
Qed.

Lemma written_not_initial : ~ written w0.
Proof.
  intros (c & Hin & Hc).
  rewrite Forall_forall in Hreadable. specialize (Hreadable c Hin).
  rewrite (readable_read w0 mkey _ Hreadable Hc) in Hread0.
  injection Hread0 as Hd. apply (f_equal versions_of) in Hd.
  rewrite versions_of_appended in Hd.
  apply (f_equal (@List.length _)) in Hd. rewrite length_app in Hd. simpl in Hd. lia.
Qed.

Lemma inv_initial :
  objects w0 !! vkey = None ->
  inv (replicate (List.length callers) Checking) w0.
Proof.
  intros Hfree. split.
  - apply length_replicate.
  - done.
  - by left.
  - apply Forall_forall. intros s Hs. apply elem_of_replicate in Hs as [-> _]. exact I.
  - rewrite Hfree. by intros [? ?].
  - intros H. by apply written_not_initial in H.
Qed.

Lemma threads_initial (l : list (string * option string)) :
  zip_with thread l (replicate (List.length l) Checking)
  = List.map (fun c => prompts_create_version cfg agent_id version c.1 c.2) l.
Proof. induction l as [|c l IH]; simpl; [done|]. by rewrite IH. Qed.

(** A move of caller [i] from stage [s] to stage [s'], the store going from
    [w] to [w'] *)
Lemma inv_move (stages : list stage) (w w' : world) i s s' :
  inv stages w ->
  stages !! i = Some s ->
  clock w' = clock w ->
  (objects w' !! mkey = objects w0 !! mkey \/ written w') ->
  (forall s0, seen w s0 -> seen w' s0) ->
  seen w' s' ->
  (is_Some (objects w' !! vkey) -> is_Some (objects w !! vkey) \/ past_put s' = true) ->
  (past_put s = true -> past_put s' = true) ->
  (written w' -> written w \/ s' = Returned) ->
  (s = Returned -> s' = Returned) ->
  inv (<[i := s']> stages) w'.
Proof.
  intros [Hlen Hclock Hman Hst Hver Hwr] Hi Hc Hm Hmono Hs' Hv' Hpast Hw' Hret.
  assert (Hlt : (i < List.length stages)%nat) by (eapply lookup_lt_Some; eauto).
  split.
  - by rewrite length_insert.
  - by rewrite Hc.
  - exact Hm.
  - apply Forall_insert; [|done]. eapply Forall_impl; [exact Hst|]. auto.
  - intros Hsome. destruct (Hv' Hsome) as [Hold|Hnew].
    + destruct (Hver Hold) as (j & sj & Hj & Hp).
      destruct (decide (i = j)) as [->|Hne].
      * exists j, s'. rewrite list_lookup_insert_eq by done. split; [done|].
        apply Hpast. by replace s with sj by congruence.
      * exists j, sj. by rewrite list_lookup_insert_ne.
    + exists i, s'. by rewrite list_lookup_insert_eq.
  - intros Hwritten. destruct (Hw' Hwritten) as [Hold| ->].
    + destruct (Hwr Hold) as (j & Hj).
      destruct (decide (i = j)) as [->|Hne].
      * exists j. rewrite list_lookup_insert_eq by done. f_equal. apply Hret. congruence.
      * exists j. by rewrite list_lookup_insert_ne.
    + exists i. by rewrite list_lookup_insert_eq.
Qed.

Lemma inv_stay (stages : list stage) (w : world) i s s' :
  inv stages w ->
  stages !! i = Some s ->
  seen w s' ->
  (past_put s = true -> past_put s' = true) ->
  (s = Returned -> s' = Returned) ->
  inv (<[i := s']> stages) w.
Proof.
  intros Hinv Hi Hs' Hpast Hret.
  apply (inv_move stages w w i s s'); auto. apply Hinv.
Qed.

Lemma seen_put (w : world) key data ctype s :
  seen w s ->
  (key = mkey -> written (put key data ctype w)) ->
  seen (put key data ctype w) s.
Proof.
  intros Hs Hkey.
  assert (Hsome : forall k, is_Some (objects w !! k) ->
                            is_Some (objects (put key data ctype w) !! k)).
  { intros k Hk. unfold put. cbn [objects].
    destruct (decide (key = k)) as [->|Hne].
    - rewrite lookup_insert_eq. eauto.
    - by rewrite lookup_insert_ne. }
  assert (Hw : written w -> written (put key data ctype w)).
  { intros (c & Hin & Hc). destruct (decide (key = mkey)) as [Heq|Hne]; [auto|].
    exists c. split; [done|]. unfold put. cbn [objects].
    by rewrite lookup_insert_ne. }
  destruct s; simpl in *; auto.
Qed.

(** One call of one caller keeps the invariant *)
#[local] Ltac moved := split; [|split; [simpl; lia|]].

Lemma callers_step (stages : list stage) (w : world) i c s :
  inv stages w ->
  callers !! i = Some c ->
  stages !! i = Some s ->
  exists s' w',
    step (thread c s) w = (thread c s', w')
    /\ (calls_left s' <= pred (calls_left s))%nat
    /\ inv (<[i := s']> stages) w'.
Proof.
  intros Hinv Hc Hi.
  assert (Hin : c ∈ callers) by (eapply list_elem_of_lookup_2; eauto).
  assert (Hseen : seen w s).
  { destruct Hinv as [_ _ _ Hst _ _]. rewrite Forall_forall in Hst.
    apply Hst. eapply list_elem_of_lookup_2; eauto. }
  destruct s.
  - (* the check of the version key *)
    cbn [stage_prog]. rewrite create_version_stages by done. cbn [step].
    destruct (bool_decide (is_Some (objects w !! vkey))) eqn:E.
    + exists Refused, w. moved; [done|].
      apply (inv_stay stages w i Checking Refused); try done.
      simpl. by apply bool_decide_eq_true in E.
    + exists WritingVersion, w. moved; [done|].
      by apply (inv_stay stages w i Checking WritingVersion).
  - (* the write of the version *)
    exists Probing, (put vkey (Py.encode_utf8 c.1) "text/plain" w). moved; [done|].
    apply (inv_move stages w _ i WritingVersion Probing); try done.
    + destruct Hinv as [_ _ [Hm|Hm] _ _ _].
      * left. rewrite <- Hm. apply put_lookup_ne, version_key_ne_manifest_key.
      * right. destruct Hm as (c' & Hin' & Hc'). exists c'. split; [done|].
        rewrite <- Hc'. apply put_lookup_ne, version_key_ne_manifest_key.
    + intros s0 Hs0. apply seen_put; [done|].
      intros Heq. by apply version_key_ne_manifest_key in Heq.
    + by right.
    + intros (c' & Hin' & Hc'). left. exists c'. split; [done|].
      rewrite <- Hc'. symmetry. apply put_lookup_ne, version_key_ne_manifest_key.
  - (* the check of the manifest key *)
    cbn [stage_prog]. unfold update_manifest, _s3_exists, mbind, prog_bind.
    cbn [bind step].
    destruct (bool_decide (is_Some (objects w !! mkey))) eqn:E.
    + exists Fetching, w. moved; [done|].
      apply (inv_stay stages w i Probing Fetching); try done.
      simpl. by apply bool_decide_eq_true in E.
    + apply bool_decide_eq_false in E.
      assert (Hnone : objects w !! mkey = None).
      { destruct (objects w !! mkey) eqn:E'; [|done]. exfalso. apply E. eauto. }
      assert (Hd0 : d0 = empty_manifest).
      { destruct Hinv as [_ _ [Hm|(c' & _ & Hm)] _ _ _]; [|congruence].
        rewrite <- Hm, Hnone in Hread0. simpl in Hread0. congruence. }
      exists Timing, w. moved.
      * cbn [stage_prog]. rewrite Hd0. reflexivity.
      * by apply (inv_stay stages w i Probing Timing).
  - (* the read of the manifest *)
    simpl in Hseen. destruct Hseen as [o Ho].
    cbn [stage_prog]. unfold fetch_manifest, _s3_get_json, _s3_get_text, mbind, prog_bind.
    cbn [bind step]. rewrite Ho.
    pose proof Hinv as [_ _ Hman _ _ _].
    destruct Hman as [Hm|Hm].
    + (* the manifest is the initial one *)
      rewrite <- Hm, Ho in Hread0. simpl in Hread0.
      destruct (Py.decode_utf8 (body o)) as [text|]; [|done]. cbn [bind].
      destruct (json_loads text) as [m|]; [|done].
      injection Hread0 as ->.
      exists Timing, w. moved.
      * cbn [bind lift manifest_defaults]. unfold append_entry, mbind, prog_bind.
        rewrite manifest_versions_defaults. cbn [bind lift].
        rewrite any_version_unlisted by done. reflexivity.
      * by apply (inv_stay stages w i Fetching Timing).
    + (* the manifest is one a caller wrote *)
      destruct Hm as (c' & Hin' & Hc').
      assert (Hr : readable (JDict (appended d0 (new_entry version c'.2 (clock w0))))).
      { rewrite Forall_forall in Hreadable. by apply Hreadable. }
      rewrite Ho in Hc'. injection Hc' as ->. destruct Hr as [Hdec Hload].
      unfold text_object. cbn [body]. rewrite Hdec. cbn [bind]. rewrite Hload.
      exists FoundListed, w. moved.
      * cbn [bind lift manifest_defaults]. unfold append_entry, mbind, prog_bind.
        rewrite manifest_versions_defaults. cbn [bind lift].
        rewrite versions_of_appended.
        rewrite any_version_listed; [reflexivity| |].
        -- eapply Forall_impl; [exact Hfresh|]. by intros x [Hx _].
        -- rewrite has_label_new_entry. apply String.eqb_refl.
      * apply (inv_stay stages w i Fetching FoundListed); try done.
        simpl. exists c'. split; [done|]. by rewrite Ho.
  - (* the reading of the clock *)
    exists WritingManifest, w. moved.
    + cbn [stage_prog]. unfold mbind, prog_bind. cbn [bind step].
      destruct Hinv as [_ -> _ _ _ _]. reflexivity.
    + by apply (inv_stay stages w i Timing WritingManifest).
  - (* the write of the manifest *)
    set (text := json_dumps (JDict (appended d0 (new_entry version c.2 (clock w0))))).
    exists Returned, (put mkey (Py.encode_utf8 text) "application/json" w).
    moved; [done|].
    assert (Hw : written (put mkey (Py.encode_utf8 text) "application/json" w)).
    { exists c. split; [done|]. unfold put. cbn [objects]. apply lookup_insert_eq. }
    apply (inv_move stages w _ i WritingManifest Returned); try done.
    + by right.
    + intros s0 Hs0. by apply seen_put.
    + intros Hsome. left.
      rewrite put_lookup_ne in Hsome by (apply not_eq_sym, version_key_ne_manifest_key).
      done.
    + by right.
  - exists Refused, w. moved; [done|]. by apply (inv_stay stages w i Refused Refused).
  - exists FoundListed, w. moved; [done|].
    by apply (inv_stay stages w i FoundListed FoundListed).
  - exists Returned, w. moved; [done|].
    by apply (inv_stay stages w i Returned Returned).
Qed.

(** Any schedule keeps the invariant *)
Lemma callers_interleave (sched : list nat) :
  forall (stages : list stage) (w : world),
    inv stages w ->
    exists stages',
      (interleave sched (zip_with thread callers stages) w).1
      = zip_with thread callers stages'
      /\ inv stages' (interleave sched (zip_with thread callers stages) w).2
      /\ forall j s,
           stages !! j = Some s ->
           exists s',
             stages' !! j = Some s'
             /\ (calls_left s' <= calls_left s - count_occ Nat.eq_dec sched j)%nat.
Proof.
  induction sched as [|i sched IH]; intros stages w Hinv.
  - exists stages. split; [done|]. split; [done|].
    intros j s Hj. exists s. split; [done|]. simpl. lia.
  - cbn [interleave].
    destruct (zip_with thread callers stages !! i) as [p|] eqn:E.
    + apply lookup_zip_with_Some in E as (c & s & -> & Hc & Hs).
      destruct (callers_step stages w i c s Hinv Hc Hs)
        as (s1 & w1 & Hstep & Hleft & Hinv1).
      rewrite Hstep. rewrite insert_zip_with, (list_insert_id callers) by done.
      destruct (IH _ _ Hinv1) as (stages' & Hts & Hinv' & Hrank).
      exists stages'. split; [done|]. split; [done|].
      intros j sj Hj. destruct (decide (i = j)) as [->|Hne].
      * destruct (Hrank j s1) as (s' & Hs' & Hle).
        { apply list_lookup_insert_eq. eapply lookup_lt_Some; eauto. }
        exists s'. split; [done|]. rewrite count_occ_cons_eq by done.
        replace sj with s by congruence. lia.
      * destruct (Hrank j sj) as (s' & Hs' & Hle).
        { by rewrite list_lookup_insert_ne. }
        exists s'. split; [done|]. by rewrite count_occ_cons_neq.
    + destruct (IH _ _ Hinv) as (stages' & Hts & Hinv' & Hrank).
      exists stages'. split; [done|]. split; [done|].
      intros j sj Hj. destruct (decide (i = j)) as [->|Hne].
      * apply lookup_zip_with_None in E as [E|E]; [|congruence].
        apply lookup_ge_None in E. apply lookup_lt_Some in Hj.
        destruct Hinv as [Hlen _ _ _ _ _]. lia.
      * destruct (Hrank j sj Hj) as (s' & Hs' & Hle).
        exists s'. split; [done|]. by rewrite count_occ_cons_neq.
Qed.

Lemma returned_thread c s : returned (thread c s) = ended s.
Proof.
  destruct s; try reflexivity.
  cbn [stage_prog]. by rewrite create_version_stages.
Qed.

Lemma callers_ended (stages : list stage) (w : world) :
  inv stages w ->
  callers <> [] ->
  Forall (fun s => ended s = true) stages ->
  written w.
Proof.
  intros [Hlen Hclock Hman Hst Hver Hwr] Hne Hend.
  assert (Hdone : forall j s, stages !! j = Some s -> past_put s = true -> written w).
  { intros j s Hj Hp. rewrite Forall_forall in Hst, Hend.
    assert (Hin : s ∈ stages) by (eapply list_elem_of_lookup_2; eauto).
    specialize (Hst s Hin). specialize (Hend s Hin).
    destruct s; try discriminate; exact Hst. }
  destruct stages as [|s stages]; [by destruct callers|].
  apply Forall_cons in Hend as [Hs _]. apply Forall_cons in Hst as [Hs' _].
  destruct s; try discriminate; simpl in Hs'; try done.
  destruct (Hver Hs') as (j & sj & Hj & Hp). by eapply Hdone.
Qed.

Lemma ended_calls_left s : calls_left s = 0%nat -> ended s = true.
Proof. by destruct s. Qed.

Lemma callers_same_label (sched : list nat) :
  objects w0 !! vkey = None ->
  callers <> [] ->
  let ts :=
    interleave sched
      (List.map (fun c => prompts_create_version cfg agent_id version c.1 c.2) callers)
      w0 in
  ((forall i, (i < List.length callers)%nat ->
              (6 <= count_occ Nat.eq_dec sched i)%nat) ->
   Forall (fun p => returned p = true) ts.1)
  /\ (Forall (fun p => returned p = true) ts.1 ->
      Exists (fun p => p = Ret (created cfg agent_id version)) ts.1
      /\ Forall (fun p => p = Ret (created cfg agent_id version)
                          \/ p = Raise (already_exists version)
                          \/ p = Raise (already_listed version)) ts.1
      /\ exists (d1 : dict) vs,
           objects ts.2 !! mkey
           = Some (text_object (json_dumps (JDict d1)) "application/json")
           /\ dict_lookup "versions" d1 = Some (JList vs)
           /\ List.length (List.filter (has_label version) vs) = 1%nat).
Proof.
  intros Hfree Hne ts. subst ts. rewrite <- threads_initial.
  destruct (callers_interleave sched _ _ (inv_initial Hfree))
    as (stages' & Hts & Hinv & Hleft).
  rewrite Hts. set (w' := (interleave _ _ _).2) in *.
  assert (Hlen : List.length stages' = List.length callers) by apply Hinv.
  split.
  - intros Hfair. apply Forall_forall. intros p Hp.
    apply list_elem_of_lookup in Hp as [i Hp].
    apply lookup_zip_with_Some in Hp as (c & s & -> & Hc & Hs).
    rewrite returned_thread. apply ended_calls_left.
    apply lookup_lt_Some in Hc.
    destruct (Hleft i Checking) as (s' & Hs' & Hle).
    { by apply lookup_replicate_2. }
    specialize (Hfair i Hc). replace s with s' by congruence.
    change (calls_left Checking) with 6%nat in Hle. lia.
  - intros Hret.
    assert (Hend : Forall (fun s => ended s = true) stages').
    { apply Forall_forall. intros s Hs.
      apply list_elem_of_lookup in Hs as [i Hs].
      destruct (lookup_lt_is_Some_2 callers i) as [c Hc].
      { rewrite <- Hlen. eapply lookup_lt_Some; eauto. }
      rewrite <- (returned_thread c). rewrite Forall_forall in Hret. apply Hret.
      apply list_elem_of_lookup. exists i. apply lookup_zip_with_Some. eauto. }
    assert (Hw : written w') by (eapply callers_ended; eauto).
    split; [|split].
    + destruct Hinv as [_ _ _ _ _ Hwr]. destruct (Hwr Hw) as (j & Hj).
      destruct (lookup_lt_is_Some_2 callers j) as [c Hc].
      { rewrite <- Hlen. eapply lookup_lt_Some; eauto. }
      apply Exists_exists. exists (thread c Returned). split; [|done].
      apply list_elem_of_lookup. exists j. apply lookup_zip_with_Some. eauto.
    + apply Forall_forall. intros p Hp.
      apply list_elem_of_lookup in Hp as [i Hp].
      apply lookup_zip_with_Some in Hp as (c & s & -> & Hc & Hs).
      rewrite Forall_forall in Hend.
      assert (He : ended s = true)
        by (apply Hend; eapply list_elem_of_lookup_2; eauto).
      destruct s; try discriminate; simpl; auto.
    + by apply written_one_entry.
Qed.

End Callers.

(** C1 (as the code has it). On a manifest that is absent or an object,
    for a non-empty unused label whose manifest entries are objects.
    Calls made one after the other: the call succeeds and ends with a plain
    [put_object] of the manifest; a later call with the same label raises
    "already exists" and leaves the store as it was, so the manifest holds
    exactly one entry of that label.  For any number of calls with pairwise
    distinct unused labels, made one after the other, every call succeeds
    and the final manifest is the initial list followed by the entries of
    all the calls, in order.  Callers with the same label whose store calls
    interleave in any order: each has returned or raised after six calls of
    its own; once all have, every one of them has returned normally or
    raised "already exists" or "already listed", some caller has returned
    normally, and the manifest holds exactly one entry of that label.  Each
    manifest written is taken to survive the JSON library's round trip. *)
Theorem create_version_callers cfg agent_id (w : world) (d0 : dict) :
  use_s3 cfg = true ->
  read_manifest (objects w !! manifest_key_of cfg agent_id) = Ok (JDict d0) ->
  let mkey := manifest_key_of cfg agent_id in
  (forall version content note content2 note2 (now2 : number),
     version <> EmptyString ->
     objects w !! version_key_of cfg agent_id version = None ->
     Forall (fun x => is_dict x = true /\ has_label version x = false)
       (versions_of d0) ->
     let first := prompts_create_version cfg agent_id version content note in
     let second := prompts_create_version cfg agent_id version content2 note2 in
     let w1 := later (world_after first w) now2 in
     let entry := new_entry version note (clock w) in
     result_of first w = Ok (created cfg agent_id version)
     /\ (exists calls,
           calls_of first w
           = (calls ++ [CPut mkey (json_dumps (JDict (appended d0 entry)))
                          "application/json"])%list)
     /\ result_of second w1 = Err (already_exists version)
     /\ objects (world_after second w1) = objects w1
     /\ exists (d1 : dict) vs,
          objects (world_after second w1) !! mkey
          = Some (text_object (json_dumps (JDict d1)) "application/json")
          /\ dict_lookup "versions" d1 = Some (JList vs)
          /\ List.length (List.filter (has_label version) vs) = 1%nat)
  /\ (forall reqs : list request,
        NoDup (List.map rq_version reqs) ->
        Forall (fresh_in cfg agent_id w d0) reqs ->
        Forall (fun d => readable (JDict d)) (manifests_after d0 reqs) ->
        (run_all cfg agent_id reqs w).1
        = List.map (fun r => Ok (created cfg agent_id (rq_version r))) reqs
        /\ read_manifest (objects (run_all cfg agent_id reqs w).2 !! mkey)
           = Ok (JDict (manifest_after d0 reqs))
        /\ versions_of (manifest_after d0 reqs)
           = (versions_of d0 ++ List.map entry_of reqs)%list)
  /\ (forall version (callers : list (string * option string)) (sched : list nat),
        version <> EmptyString ->
        objects w !! version_key_of cfg agent_id version = None ->
        Forall (fun x => is_dict x = true /\ has_label version x = false)
          (versions_of d0) ->
        callers <> [] ->
        Forall (fun c =>
                  readable (JDict (appended d0 (new_entry version c.2 (clock w)))))
          callers ->
        let ts :=
          interleave sched
            (List.map (fun c => prompts_create_version cfg agent_id version c.1 c.2)
               callers)
            w in
        ((forall i, (i < List.length callers)%nat ->
                    (6 <= count_occ Nat.eq_dec sched i)%nat) ->
         Forall (fun p => returned p = true) ts.1)
        /\ (Forall (fun p => returned p = true) ts.1 ->
            Exists (fun p => p = Ret (created cfg agent_id version)) ts.1
            /\ Forall (fun p => p = Ret (created cfg agent_id version)
                                \/ p = Raise (already_exists version)
                                \/ p = Raise (already_listed version)) ts.1
            /\ exists (d1 : dict) vs,
                 objects ts.2 !! mkey
                 = Some (text_object (json_dumps (JDict d1)) "application/json")
                 /\ dict_lookup "versions" d1 = Some (JList vs)
                 /\ List.length (List.filter (has_label version) vs) = 1%nat)).
Proof.
  intros Hs3 Hread mkey.
  destruct (create_version_one_by_one cfg agent_id w d0 Hs3 Hread) as [Hsame Hdistinct].
  split; [exact Hsame|]. split; [exact Hdistinct|].
  intros version callers sched Hv Hfree Hok Hne Hrd.
  by apply (callers_same_label cfg agent_id version w d0 callers).
Qed.

End Facts.

(** ** Further facts: keys, writes, failures *)

Section Further.

Context {number : Type} {lib : Libraries number}.
#[local] Abbreviation json := (@json number).
#[local] Abbreviation dict := (@dict number).
#[local] Abbreviation prog := (@prog number).
#[local] Abbreviation world := (@world number).

(** X1. [_ensure_trailing_slash] returns a string that ends with a slash,
    and applying it twice is applying it once. *)
Theorem ensure_trailing_slash_ends (prefix : string) :
  Py.endswith (_ensure_trailing_slash prefix) "/" = true
  /\ _ensure_trailing_slash (_ensure_trailing_slash prefix)
     = _ensure_trailing_slash prefix.
Proof.
  unfold _ensure_trailing_slash.
  destruct (Py.endswith prefix "/") eqn:E.
  - by rewrite E.
  - by rewrite endswith_slash.
Qed.

(** X2. For one agent, the key of a version is never the key of the
    manifest, and two labels have the same key only when they are the same
    label. *)
Theorem version_keys_distinct cfg agent_id version version' :
  version_key_of cfg agent_id version <> manifest_key_of cfg agent_id
  /\ (version_key_of cfg agent_id version = version_key_of cfg agent_id version' ->
      version = version').
Proof.
  split; [apply version_key_ne_manifest_key|apply version_key_inj].
Qed.

Lemma create_version_world cfg agent_id version content note (w : world) :
  let p := prompts_create_version cfg agent_id version content note in
  let vkey := version_key_of cfg agent_id version in
  world_after p w = w
  \/ (objects w !! vkey = None /\ use_s3 cfg = true /\ version <> EmptyString
      /\ (world_after p w = put vkey content "text/plain" w
          \/ exists text,
               world_after p w
               = put (manifest_key_of cfg agent_id) text "application/json"
                   (put vkey content "text/plain" w))).
Proof.
  intros p vkey. subst p vkey. unfold world_after.
  destruct (use_s3 cfg) eqn:Hs3; [|left; by rewrite create_version_disabled].
  destruct (String.eqb version EmptyString) eqn:Hv.
  { apply String.eqb_eq in Hv; subst version.
    left. by rewrite create_version_empty_label. }
  apply String.eqb_neq in Hv.
  destruct (objects w !! version_key_of cfg agent_id version) as [o|] eqn:Hfree.
  { left. by rewrite create_version_key_exists by eauto. }
  right. split; [done|]. split; [done|]. split; [done|].
  rewrite create_version_cases by done.
  destruct (read_manifest _) as [[| | | | |d0]|e]; simpl; try (by left).
  destruct (any_version version (versions_of d0)) as [[|]|e]; simpl; try (by left).
  right. eauto.
Qed.

Lemma create_version_grows cfg agent_id version content note (w : world) key :
  is_Some (objects w !! key) ->
  is_Some (objects (world_after
                      (prompts_create_version cfg agent_id version content note) w)
           !! key).
Proof.
  intros Hk.
  destruct (create_version_world cfg agent_id version content note w)
    as [Hw|(_ & _ & _ & [Hw|[text Hw]])]; rewrite Hw; unfold put; simpl.
  - done.
  - destruct (decide (version_key_of cfg agent_id version = key)) as [->|Hne].
    + rewrite lookup_insert_eq. eauto.
    + by rewrite lookup_insert_ne.
  - destruct (decide (manifest_key_of cfg agent_id = key)) as [->|Hm].
    + rewrite lookup_insert_eq. eauto.
    + rewrite lookup_insert_ne by done.
      destruct (decide (version_key_of cfg agent_id version = key)) as [->|Hne].
      * rewrite lookup_insert_eq. eauto.
      * by rewrite lookup_insert_ne.
Qed.

(** X3. [prompts_create_version] writes at most two keys, the key of the
    version and the key of the manifest: every other object of the store is
    as it was; when an object already sits at the key of the version the
    whole store is as it was; and no object is ever removed. *)
Theorem create_version_frame cfg agent_id version content note (w : world) :
  let p := prompts_create_version cfg agent_id version content note in
  let vkey := version_key_of cfg agent_id version in
  let mkey := manifest_key_of cfg agent_id in
  (forall key, key <> vkey -> key <> mkey ->
               objects (world_after p w) !! key = objects w !! key)
  /\ (is_Some (objects w !! vkey) -> world_after p w = w)
  /\ (forall key, is_Some (objects w !! key) ->
                  is_Some (objects (world_after p w) !! key)).
Proof.
  intros p vkey mkey. split; [|split].
  - intros key Hv Hm.
    destruct (create_version_world cfg agent_id version content note w)
      as [Hw|(_ & _ & _ & [Hw|[text Hw]])]; fold p vkey in Hw;
      rewrite Hw; unfold put; simpl; [done| |];
      by rewrite !lookup_insert_ne.
  - intros Hex.
    destruct (create_version_world cfg agent_id version content note w)
      as [Hw|(Hfree & _)]; [done|].
    fold vkey in Hfree. rewrite Hfree in Hex. by destruct Hex.
  - intros key. apply create_version_grows.
Qed.

(** X4. A label can be tried once.  With the backend enabled, a non-empty
    label and no object at the key of the version, the call leaves the
    version object in the store whether it succeeds or fails, so any later
    call with the same label raises "already exists" and changes nothing. *)
Theorem label_is_used_up cfg agent_id version content note content2 note2
    (now2 : number) (w : world) :
  use_s3 cfg = true ->
  version <> EmptyString ->
  objects w !! version_key_of cfg agent_id version = None ->
  let first := prompts_create_version cfg agent_id version content note in
  let second := prompts_create_version cfg agent_id version content2 note2 in
  let w1 := later (world_after first w) now2 in
  objects w1 !! version_key_of cfg agent_id version
  = Some (text_object content "text/plain")
  /\ result_of second w1 = Err (already_exists version)
  /\ world_after second w1 = w1.
Proof.
  intros Hs3 Hv Hfree first second w1.
  assert (Hk : objects w1 !! version_key_of cfg agent_id version
               = Some (text_object content "text/plain")).
  { subst w1 first. unfold later, world_after. cbn [objects].
    rewrite create_version_cases by done.
    assert (Hput : forall text,
               objects (put (manifest_key_of cfg agent_id) text "application/json"
                          (put (version_key_of cfg agent_id version) content
                             "text/plain" w))
                 !! version_key_of cfg agent_id version
               = Some (text_object content "text/plain")).
    { intros text. unfold put. cbn [objects].
      rewrite lookup_insert_ne by (apply not_eq_sym, version_key_ne_manifest_key).
      apply lookup_insert_eq. }
    destruct (read_manifest _) as [[| | | | |d0]|e]; cbn [fst snd];
      try apply lookup_insert_eq.
    destruct (any_version version (versions_of d0)) as [[|]|e]; cbn [fst snd];
      try apply lookup_insert_eq.
    apply Hput. }
  split; [exact Hk|]. subst second. unfold result_of, world_after.
  rewrite create_version_key_exists; [done|done|done|].
  rewrite Hk. eauto.
Qed.

Lemma any_version_not_object version (pre : list json) x post :
  Forall (fun e => is_dict e = true /\ has_label version e = false) pre ->
  is_dict x = false ->
  any_version version (pre ++ x :: post) = Err AttributeError.
Proof.
  intros Hpre Hx. induction Hpre as [|e pre [Hd Hl] _ IH]; simpl.
  - by destruct x.
  - destruct e; try discriminate. simpl in Hl. by rewrite Hl.
Qed.

(** X5. With the backend enabled, a non-empty label and no object at the
    key of the version, a manifest object that cannot be used makes
    [prompts_create_version] raise after the version has been written:
    [UnicodeDecodeError] when its bytes are not UTF-8, the exception of
    [json.loads] when [json.loads] refuses it, [TypeError] when it is not a
    JSON object, [AttributeError] when an entry that is not an object comes
    before any entry of the label.  Whenever the call raises, the store is the initial
    one plus the version object. *)
Theorem unusable_manifest cfg agent_id version content note (w : world) o :
  use_s3 cfg = true ->
  version <> EmptyString ->
  objects w !! version_key_of cfg agent_id version = None ->
  objects w !! manifest_key_of cfg agent_id = Some o ->
  let p := prompts_create_version cfg agent_id version content note in
  (Py.decode_utf8 (body o) = None -> result_of p w = Err UnicodeDecodeError)
  /\ (forall text,
        Py.decode_utf8 (body o) = Some text -> json_loads text = None ->
        result_of p w = Err (json_loads_error text))
  /\ (forall text m,
        Py.decode_utf8 (body o) = Some text -> json_loads text = Some m ->
        is_dict m = false ->
        result_of p w = Err TypeError)
  /\ (forall text (d : dict) pre x post,
        Py.decode_utf8 (body o) = Some text -> json_loads text = Some (JDict d) ->
        versions_of d = (pre ++ x :: post)%list ->
        Forall (fun e => is_dict e = true /\ has_label version e = false) pre ->
        is_dict x = false ->
        result_of p w = Err AttributeError)
  /\ (forall e,
        result_of p w = Err e ->
        world_after p w
        = put (version_key_of cfg agent_id version) content "text/plain" w).
Proof.
  intros Hs3 Hv Hfree Ho p. subst p. unfold result_of, world_after.
  rewrite create_version_cases by done. rewrite Ho.
  unfold read_manifest. repeat split.
  - by intros ->.
  - by intros text -> ->.
  - intros text m -> -> Hm. by destruct m.
  - intros text d pre x post -> -> Hvs Hpre Hx. rewrite Hvs.
    by rewrite any_version_not_object.
  - intros e. destruct (Py.decode_utf8 (body o)) as [text|]; [|done].
    destruct (json_loads text) as [[| | | | |d]|]; try done.
    by destruct (any_version version (versions_of d)) as [[|]|e'].
Qed.

(** X6. What [_s3_put_text] writes, [_s3_get_text] reads back when the
    content is text, and [_s3_exists] then answers yes; the other keys
    answer as before.  [_s3_exists] answers no exactly when [_s3_get_text]
    raises the missing-key error. *)
Theorem put_then_get cfg key content ctype (w : world) :
  Py.utf8_valid content = true ->
  let w' := world_after (_s3_put_text cfg key content ctype) w in
  result_of (_s3_get_text cfg key) w' = Ok content
  /\ result_of (_s3_exists cfg key) w' = Ok true
  /\ (forall key', key' <> key ->
        result_of (_s3_get_text cfg key') w' = result_of (_s3_get_text cfg key') w
        /\ result_of (_s3_exists cfg key') w' = result_of (_s3_exists cfg key') w)
  /\ (forall key',
        result_of (_s3_exists cfg key') w = Ok false
        <-> result_of (_s3_get_text cfg key') w = Err (ClientError "NoSuchKey")).
Proof.
  intros Hc w'. subst w'.
  unfold world_after, result_of, _s3_put_text, _s3_get_text, _s3_exists,
    Py.encode_utf8, Py.decode_utf8, put. simpl.
  split; [|split; [|split]].
  - rewrite lookup_insert_eq. simpl. by rewrite Hc.
  - by rewrite lookup_insert_eq.
  - intros key' Hne. apply not_eq_sym in Hne. rewrite lookup_insert_ne by done.
    split; [|done]. destruct (objects w !! key') as [o'|]; [|done].
    by destruct (Py.utf8_valid (body o')).
  - intros key'. destruct (objects w !! key') as [o'|]; simpl.
    + split; [done|]. by destruct (Py.utf8_valid (body o')).
    + done.
Qed.

(** ** Tools that only read *)

Lemma never_puts_run {A : Type} (p : prog A) (w : world) :
  never_puts p ->
  world_after p w = w /\ Forall (fun c => is_write c = false) (calls_of p w).
Proof.
  unfold world_after, calls_of.
  revert w; induction p as [a|e|key k IH|key k IH|key data ctype k IH|req k IH|k IH];
    intros w Hp; simpl in *; try done.
  - set (b := bool_decide _). destruct (IH b w (Hp b)) as [H1 H2].
    destruct (run (k b) w) as [[r w'] t]. simpl in *.
    split; [done|]. by apply Forall_cons.
  - destruct (objects w !! key) as [o|].
    + destruct (IH (body o) w (Hp (body o))) as [H1 H2].
      destruct (run (k (body o)) w) as [[r w'] t]. simpl in *.
      split; [done|]. by apply Forall_cons.
    + split; [done|]. by apply Forall_cons.
  - set (x := list_objects_v2 _ _). destruct (IH x w (Hp x)) as [H1 H2].
    destruct (run (k x) w) as [[r w'] t]. simpl in *.
    split; [done|]. by apply Forall_cons.
  - destruct (IH (clock w) w (Hp (clock w))) as [H1 H2].
    destruct (run (k (clock w)) w) as [[r w'] t]. simpl in *.
    split; [done|]. by apply Forall_cons.
Qed.

Lemma never_puts_bind {A B : Type} (p : prog A) (f : A -> prog B) :
  never_puts p -> (forall a, never_puts (f a)) -> never_puts (bind p f).
Proof.
  intros Hp Hf. induction p; simpl in *; eauto.
Qed.

Lemma never_puts_cfg cfg : never_puts (_cfg cfg : prog HubConfig).
Proof. unfold _cfg. by destruct (use_s3 cfg). Qed.

Lemma never_puts_get_json cfg key : never_puts (_s3_get_json cfg key : prog json).
Proof.
  unfold _s3_get_json, _s3_get_text, mbind, prog_bind. simpl. intros d.
  destruct (Py.decode_utf8 d) as [text|]; simpl; [|done].
  by destruct (json_loads text).
Qed.

Lemma never_puts_tool cfg (t : tool) : reads_only t = true -> never_puts (call_tool cfg t).
Proof.
  destruct t; try discriminate; intros _;
    unfold call_tool, returning, mbind, prog_bind;
    (apply never_puts_bind; [|done]).
  - unfold hub_status. apply never_puts_bind; [apply never_puts_cfg|done].
  - unfold prompts_list_versions, mbind, prog_bind.
    apply never_puts_bind; [apply never_puts_cfg|]. intros c. simpl.
    intros [|]; [apply never_puts_get_json|done].
  - unfold metrics_list, mbind, prog_bind.
    apply never_puts_bind; [apply never_puts_cfg|]. by intros c r.
  - unfold metrics_get, mbind, prog_bind.
    apply never_puts_bind; [apply never_puts_cfg|]. intros c.
    destruct (negb _); [done|apply never_puts_get_json].
  - unfold sessions_list, mbind, prog_bind.
    apply never_puts_bind; [apply never_puts_cfg|]. by intros c r.
  - unfold sessions_get_session_json, mbind, prog_bind.
    apply never_puts_bind; [apply never_puts_cfg|]. intros c.
    apply never_puts_get_json.
  - unfold sessions_list_agents, mbind, prog_bind.
    apply never_puts_bind; [apply never_puts_cfg|]. by intros c r.
  - unfold sessions_get_agent_json, mbind, prog_bind.
    apply never_puts_bind; [apply never_puts_cfg|]. intros c.
    apply never_puts_get_json.
  - unfold sessions_list_messages, mbind, prog_bind.
    apply never_puts_bind; [apply never_puts_cfg|]. by intros c r.
  - unfold sessions_get_message_json, mbind, prog_bind.
    apply never_puts_bind; [apply never_puts_cfg|]. intros c.
    destruct (negb _); [done|apply never_puts_get_json].
  - unfold sessions_get_raw, mbind, prog_bind.
    apply never_puts_bind; [apply never_puts_cfg|]. intros c.
    destruct (negb _); [done|]. simpl. intros d.
    destruct (Py.decode_utf8 d) as [text|]; simpl; [|done].
    by destruct (json_loads text).
Qed.

(** X7. The status, listing and fetching tools never write: whatever the
    configuration, the arguments and the store, none of the calls they make
    is a [put_object] and the store afterwards is the store before. *)
Theorem reading_tools_never_write cfg (t : tool) (w : world) :
  reads_only t = true ->
  world_after (call_tool cfg t) w = w
  /\ Forall (fun c => is_write c = false) (calls_of (call_tool cfg t) w).
Proof. intros Ht. by apply never_puts_run, never_puts_tool. Qed.

(** X17. Calls made one after the other never leave a label in the
    manifest without its object: if the manifest reads as an object whose
    labels all have their version object in the store, the same holds
    after [prompts_create_version], whether it succeeds or fails, provided
    the manifest it writes survives the JSON library's round trip. *)
Theorem manifest_stays_consistent cfg agent_id version content note (w : world) :
  manifest_consistent cfg agent_id w ->
  (forall d0 : dict,
     read_manifest (objects w !! manifest_key_of cfg agent_id) = Ok (JDict d0) ->
     readable (JDict (appended d0 (new_entry version note (clock w))))) ->
  manifest_consistent cfg agent_id
    (world_after (prompts_create_version cfg agent_id version content note) w).
Proof.
  intros (d & Hread & Hall) Hrd.
  set (p := prompts_create_version cfg agent_id version content note).
  assert (Hkeep : Forall (fun e => forall v, entry_label e = Some v ->
                    is_Some (objects (world_after p w)
                             !! version_key_of cfg agent_id v)) (versions_of d)).
  { eapply Forall_impl; [exact Hall|]. intros e He v Hv.
    by apply create_version_grows, He. }
  assert (Hsame : objects (world_after p w) !! manifest_key_of cfg agent_id
                  = objects w !! manifest_key_of cfg agent_id ->
                  manifest_consistent cfg agent_id (world_after p w)).
  { intros Hm. exists d. by rewrite Hm. }
  revert Hkeep Hsame. subst p. unfold world_after.
  destruct (use_s3 cfg) eqn:Hs3;
    [|rewrite create_version_disabled by done; intros _ H; by apply H].
  destruct (String.eqb version EmptyString) eqn:Hv.
  { apply String.eqb_eq in Hv; subst version.
    rewrite create_version_empty_label by done. intros _ H; by apply H. }
  apply String.eqb_neq in Hv.
  destruct (objects w !! version_key_of cfg agent_id version) as [o|] eqn:Hfree.
  { rewrite create_version_key_exists by eauto. intros _ H; by apply H. }
  rewrite create_version_cases by done. rewrite Hread.
  assert (Hput : objects (put (version_key_of cfg agent_id version) content
                            "text/plain" w) !! manifest_key_of cfg agent_id
                 = objects w !! manifest_key_of cfg agent_id)
    by apply put_lookup_ne, version_key_ne_manifest_key.
  destruct (any_version version (versions_of d)) as [[|]|e];
    [intros _ H; by apply H| |intros _ H; by apply H].
  cbn [fst snd]. intros Hkeep _.
  exists (appended d (new_entry version note (clock w))). split.
  - apply readable_read; [by apply Hrd|]. unfold put. simpl. apply lookup_insert_eq.
  - rewrite versions_of_appended. apply Forall_app. split; [exact Hkeep|].
    apply Forall_cons. split; [|done]. intros v [= <-]. unfold put. simpl.
    rewrite lookup_insert_ne by (apply not_eq_sym, version_key_ne_manifest_key).
    rewrite lookup_insert_eq. eauto.
Qed.

(** ** Listing requests *)

Lemma clamp_limit_bounds (limit : Z) :
  (1 <= Py.clamp_limit limit <= 1000)%Z
  /\ ((1 <= limit <= 1000)%Z -> Py.clamp_limit limit = limit)
  /\ ((limit <= 1)%Z -> Py.clamp_limit limit = 1%Z)
  /\ ((1000 <= limit)%Z -> Py.clamp_limit limit = 1000%Z).
Proof. unfold Py.clamp_limit. lia. Qed.

(** X8. Each listing tool makes exactly one [list_objects_v2] call, on its
    own prefix, with the delimiter only for the two folder listings, and
    with [MaxKeys] between 1 and 1000: the limit itself when it lies in
    that range, 1 below it and 1000 above it. *)
Theorem listing_requests cfg session_id agent_id date_prefix agent limit token
    (w : world) :
  use_s3 cfg = true ->
  calls_of (sessions_list cfg limit token) w
  = [CList (page_request (_sessions_root cfg) (Some "/") limit token)]
  /\ calls_of (sessions_list_agents cfg session_id limit token) w
     = [CList (page_request (_sessions_root cfg +:+ session_id +:+ "/agents/")
                 (Some "/") limit token)]
  /\ calls_of (sessions_list_messages cfg session_id agent_id limit token) w
     = [CList (page_request (messages_base cfg session_id agent_id) None limit token)]
  /\ calls_of (metrics_list cfg date_prefix agent limit token) w
     = [CList (page_request
                 (match truthy date_prefix with
                  | Some d => metrics_prefix cfg +:+ d +:+ "/"
                  | None => metrics_prefix cfg
                  end) None limit token)]
  /\ (1 <= Py.clamp_limit limit <= 1000)%Z
  /\ ((1 <= limit <= 1000)%Z -> Py.clamp_limit limit = limit)
  /\ ((limit <= 1)%Z -> Py.clamp_limit limit = 1%Z)
  /\ ((1000 <= limit)%Z -> Py.clamp_limit limit = 1000%Z).
Proof.
  intros Hs3.
  pose proof (sessions_root_slash cfg) as Hroot.
  pose proof (agents_prefix_slash (_sessions_root cfg) session_id) as Hagents.
  unfold calls_of, sessions_list, sessions_list_agents, sessions_list_messages,
    metrics_list, _list_common_prefixes, _cfg, page_request, messages_base.
  rewrite Hs3. simpl.
  assert (H1 : _ensure_trailing_slash (_sessions_root cfg) = _sessions_root cfg)
    by (unfold _ensure_trailing_slash at 1; by rewrite Hroot).
  assert (H2 : _ensure_trailing_slash (_sessions_root cfg +:+ session_id +:+ "/agents/")
               = _sessions_root cfg +:+ session_id +:+ "/agents/")
    by (unfold _ensure_trailing_slash at 1; by rewrite Hagents).
  rewrite H1, H2.
  repeat (split; [reflexivity|]). apply clamp_limit_bounds.
Qed.

(** X9. An empty continuation token is no token: every listing tool runs
    with [""] as it runs with [None]; for [metrics_list] the same holds of
    an empty date prefix and an empty agent id. *)
Theorem empty_token_is_no_token cfg session_id agent_id date_prefix agent limit
    (w : world) :
  run (sessions_list cfg limit (Some EmptyString)) w
  = run (sessions_list cfg limit None) w
  /\ run (sessions_list_agents cfg session_id limit (Some EmptyString)) w
     = run (sessions_list_agents cfg session_id limit None) w
  /\ run (sessions_list_messages cfg session_id agent_id limit (Some EmptyString)) w
     = run (sessions_list_messages cfg session_id agent_id limit None) w
  /\ run (metrics_list cfg date_prefix agent limit (Some EmptyString)) w
     = run (metrics_list cfg date_prefix agent limit None) w
  /\ run (metrics_list cfg (Some EmptyString) (Some EmptyString) limit None) w
     = run (metrics_list cfg None None limit None) w.
Proof. repeat split; reflexivity. Qed.

(** ** Fetching *)

Lemma get_json_run cfg key (w : world) :
  run (_s3_get_json cfg key) w
  = (match objects w !! key with
     | None => Err (ClientError "NoSuchKey")
     | Some o =>
         match Py.decode_utf8 (body o) with
         | None => Err UnicodeDecodeError
         | Some text =>
             match json_loads text with
             | Some v => Ok v
             | None => Err (json_loads_error text)
             end
         end
     end, w, [CGet key]).
Proof.
  unfold _s3_get_json, _s3_get_text, mbind, prog_bind. simpl.
  destruct (objects w !! key) as [o|]; [|done].
  destruct (Py.decode_utf8 (body o)) as [text|]; simpl; [|done].
  by destruct (json_loads text).
Qed.

Lemma message_json_enabled cfg session_id message_key agent_id :
  use_s3 cfg = true ->
  (sessions_get_message_json cfg session_id message_key agent_id : prog json)
  = _s3_get_json cfg
      (if Py.startswith message_key (messages_base cfg session_id agent_id)
       then message_key
       else messages_base cfg session_id agent_id +:+ Py.lstrip "/" message_key).
Proof.
  intros Hs3. unfold sessions_get_message_json, _cfg, messages_base.
  rewrite Hs3. simpl.
  set (base := _sessions_root cfg +:+ _).
  destruct (Py.startswith message_key base) eqn:E.
  - by rewrite E.
  - unfold Py.startswith at 1. by rewrite prefix_append.
Qed.

(** X10. [sessions_get_message_json] always reads under the messages
    prefix of the session and agent given: a message key that starts with
    that prefix is fetched as it is, any other is appended to the prefix
    after its leading slashes are dropped; either way one [get_object] is
    made, on a key that starts with the prefix, and the call runs as
    [_s3_get_json] on that key does: the raise of the second check is never
    reached, and what the call raises is what the fetch raises. *)
Theorem message_key_confined cfg session_id message_key agent_id (w : world) :
  use_s3 cfg = true ->
  let base := messages_base cfg session_id agent_id in
  let p := sessions_get_message_json cfg session_id message_key agent_id in
  exists key,
    calls_of p w = [CGet key]
    /\ Py.startswith key base = true
    /\ (Py.startswith message_key base = true -> key = message_key)
    /\ (Py.startswith message_key base = false ->
        key = base +:+ Py.lstrip "/" message_key)
    /\ run p w = run (_s3_get_json cfg key) w.
Proof.
  intros Hs3 base p. subst p. unfold calls_of.
  rewrite message_json_enabled by done. fold base.
  destruct (Py.startswith message_key base) eqn:E.
  - exists message_key. rewrite get_json_run. simpl.
    repeat split; done.
  - exists (base +:+ Py.lstrip "/" message_key). rewrite get_json_run. simpl.
    split; [done|]. split; [apply prefix_append|]. repeat split; done.
Qed.

(** X11. A message can be named by its full key or by its name under the
    messages prefix: for a name that does not itself start with the prefix
    and has no leading slash, both forms run alike.  A leading slash before
    such a name changes nothing either, provided the slashed name does not
    itself start with the prefix (with a sessions prefix that begins with a
    slash it can, and is then taken as a full key). *)
Theorem message_key_forms cfg session_id agent_id name (w : world) :
  use_s3 cfg = true ->
  let base := messages_base cfg session_id agent_id in
  Py.startswith name base = false ->
  Py.lstrip "/" name = name ->
  run (sessions_get_message_json cfg session_id (base +:+ name) agent_id) w
  = run (sessions_get_message_json cfg session_id name agent_id) w
  /\ (Py.startswith ("/" +:+ name) base = false ->
      run (sessions_get_message_json cfg session_id ("/" +:+ name) agent_id) w
      = run (sessions_get_message_json cfg session_id name agent_id) w).
Proof.
  intros Hs3 base Hn Hl. rewrite !message_json_enabled by done. fold base.
  rewrite Hn, Hl. unfold Py.startswith at 1. rewrite prefix_append.
  split; [done|]. intros ->.
  change (Py.lstrip "/" ("/" +:+ name)) with (Py.lstrip "/" name). by rewrite Hl.
Qed.

(** X12. The strict and the permissive fetch of the same session object
    agree: where [sessions_get_raw] returns a parsed value,
    [sessions_get_session_json] returns that value; where it returns the
    raw text, the strict one raises what [json.loads] raised on that text;
    where it raises, the strict one raises the same.  The same holds of
    [sessions_get_agent_json]. *)
Theorem strict_and_raw_fetch cfg session_id agent_id (w : world) :
  use_s3 cfg = true ->
  let strict_of (raw : outcome raw_result) : outcome json :=
    match raw with
    | Ok (RawJson _ v) => Ok v
    | Ok (RawText _ text) => Err (json_loads_error text)
    | Err e => Err e
    end in
  result_of (sessions_get_session_json cfg session_id) w
  = strict_of (result_of (sessions_get_raw cfg
                            (_sessions_root cfg +:+ session_id +:+ "/session.json")) w)
  /\ result_of (sessions_get_agent_json cfg session_id agent_id) w
     = strict_of (result_of (sessions_get_raw cfg
                               (_sessions_root cfg +:+ session_id +:+ "/agents/"
                                +:+ agent_id +:+ "/agent.json")) w).
Proof.
  intros Hs3 strict_of. subst strict_of. unfold result_of.
  rewrite !sessions_get_raw_run by (done || apply prefix_append).
  unfold sessions_get_session_json, sessions_get_agent_json, _cfg.
  rewrite Hs3. simpl. unfold mbind, prog_bind. simpl.
  split.
  - destruct (objects w !! _) as [o|]; [|done].
    destruct (Py.decode_utf8 (body o)) as [text|]; simpl; [|done].
    by destruct (json_loads text).
  - destruct (objects w !! _) as [o|]; [|done].
    destruct (Py.decode_utf8 (body o)) as [text|]; simpl; [|done].
    by destruct (json_loads text).
Qed.

(** ** Order of the message keys *)

Lemma insert_sorted_perm (k : string) (l : list string) :
  Permutation (Py.insert_sorted k l) (k :: l).
Proof.
  induction l as [|x l IH]; simpl; [done|].
  destruct (String.leb k x); [done|].
  rewrite IH. apply perm_swap.
Qed.

Lemma sorted_perm (l : list string) : Permutation (Py.sorted l) l.
Proof.
  induction l as [|x l IH]; simpl; [done|].
  unfold Py.sorted in *. simpl. rewrite insert_sorted_perm. by constructor.
Qed.

Lemma insert_sorted_hd (k x : string) (l : list string) :
  String.leb x k = true ->
  HdRel (fun a b => String.leb a b = true) x l ->
  HdRel (fun a b => String.leb a b = true) x (Py.insert_sorted k l).
Proof.
  intros Hxk Hx. destruct l as [|y l]; simpl; [by constructor|].
  destruct (String.leb k y); constructor; [done|]. by inversion Hx.
Qed.

Lemma insert_sorted_sorted (k : string) (l : list string) :
  Sorted (fun a b => String.leb a b = true) l ->
  Sorted (fun a b => String.leb a b = true) (Py.insert_sorted k l).
Proof.
  induction 1 as [|x l Hl IH Hx]; simpl.
  - by repeat constructor.
  - destruct (String.leb k x) eqn:E.
    + constructor; [by constructor|by constructor].
    + constructor; [done|]. apply insert_sorted_hd; [|done].
      destruct (String.leb_total k x) as [H|H]; congruence.
Qed.

Lemma sorted_sorted (l : list string) :
  Sorted (fun a b => String.leb a b = true) (Py.sorted l).
Proof.
  induction l as [|x l IH]; [constructor|].
  unfold Py.sorted in *. simpl. by apply insert_sorted_sorted.
Qed.

(** X13. [sessions_list_messages] returns the keys of the page the store
    gave, all of them and each as often, in ascending order; the token and
    the truncation flag are the store's. *)
Theorem messages_in_order cfg session_id agent_id limit token (w : world) :
  use_s3 cfg = true ->
  let resp :=
    list_objects_v2 (objects w)
      (page_request (messages_base cfg session_id agent_id) None limit token) in
  exists page,
    result_of (sessions_list_messages cfg session_id agent_id limit token) w = Ok page
    /\ Sorted (fun a b => String.leb a b = true) (kp_keys page)
    /\ Permutation (kp_keys page) (resp_contents resp)
    /\ kp_next_continuation_token page = resp_next_continuation_token resp
    /\ kp_is_truncated page = resp_is_truncated resp.
Proof.
  intros Hs3 resp. eexists. unfold result_of, sessions_list_messages, _cfg.
  rewrite Hs3. simpl. split; [reflexivity|]. simpl.
  split; [apply sorted_sorted|]. split; [apply sorted_perm|done].
Qed.

(** ** Names of the listed folders *)

Lemma rstrip_name (name : string) :
  no_slash name = true -> Py.rstrip "/" (name +:+ "/") = name.
Proof.
  induction name as [|a name IH]; [done|].
  simpl. intros [Ha Hn]%andb_true_iff.
  rewrite (IH Hn). destruct name; [|done].
  apply negb_true_iff in Ha. by rewrite Ha.
Qed.

Lemma child_names_of_names (root : string) (names : list string) :
  Forall (fun n => no_slash n = true) names ->
  child_names root (List.map (fun n => root +:+ n +:+ "/") names) = names.
Proof.
  induction 1 as [|n names Hn _ IH]; [done|].
  unfold child_names in *. simpl. unfold Py.startswith at 1.
  rewrite prefix_append. simpl. rewrite slice_from_append, rstrip_name by done.
  by rewrite IH.
Qed.

Lemma omap_some_names (root : string) (names : list string) :
  omap id (List.map (fun n => Some (root +:+ n +:+ "/")) names)
  = List.map (fun n => root +:+ n +:+ "/") names.
Proof. induction names as [|n names IH]; [done|]. simpl. f_equal. exact IH. Qed.

(** X14. When the store lists, under the root, folders whose names hold no
    slash, [sessions_list] returns exactly these names, in the store's
    order, beside the full prefixes, the token and the truncation flag of
    the store; [sessions_list_agents] does the same under the agents
    prefix of a session. *)
Theorem listed_ids_are_names cfg session_id limit token names contents next truncated
    (w : world) :
  use_s3 cfg = true ->
  Forall (fun n => no_slash n = true) names ->
  let answer prefix :=
    {| resp_common_prefixes := List.map (fun n => Some (prefix +:+ n +:+ "/")) names;
       resp_contents := contents;
       resp_next_continuation_token := next;
       resp_is_truncated := truncated |} in
  let page prefix :=
    {| ip_ids := names;
       ip_prefixes := List.map (fun n => prefix +:+ n +:+ "/") names;
       ip_next_continuation_token := next;
       ip_is_truncated := truncated |} in
  let root := _sessions_root cfg in
  let agents := _sessions_root cfg +:+ session_id +:+ "/agents/" in
  (list_objects_v2 (objects w) (page_request root (Some "/") limit token) = answer root ->
   result_of (sessions_list cfg limit token) w = Ok (page root))
  /\ (list_objects_v2 (objects w) (page_request agents (Some "/") limit token)
      = answer agents ->
      result_of (sessions_list_agents cfg session_id limit token) w = Ok (page agents)).
Proof.
  intros Hs3 Hn answer page root agents.
  pose proof (sessions_root_slash cfg) as Hroot.
  pose proof (agents_prefix_slash (_sessions_root cfg) session_id) as Hagents.
  assert (H1 : _ensure_trailing_slash root = root)
    by (subst root; unfold _ensure_trailing_slash at 1; by rewrite Hroot).
  assert (H2 : _ensure_trailing_slash agents = agents)
    by (subst agents; unfold _ensure_trailing_slash at 1; by rewrite Hagents).
  unfold result_of, page_request. split; intros Hresp.
  - rewrite sessions_list_enabled by done. unfold _list_common_prefixes.
    fold root. rewrite H1. simpl. rewrite Hresp. simpl.
    unfold id_page_of. simpl. by rewrite omap_some_names, child_names_of_names.
  - rewrite sessions_list_agents_enabled by done. unfold _list_common_prefixes.
    fold agents. rewrite H2. simpl. rewrite Hresp. simpl.
    unfold id_page_of. simpl. by rewrite omap_some_names, child_names_of_names.
Qed.

Lemma session_json_enabled cfg session_id :
  use_s3 cfg = true ->
  (sessions_get_session_json cfg session_id : prog json)
  = _s3_get_json cfg (_sessions_root cfg +:+ session_id +:+ "/session.json").
Proof. intros H. unfold sessions_get_session_json, _cfg. by rewrite H. Qed.

Lemma agent_json_enabled cfg session_id agent_id :
  use_s3 cfg = true ->
  (sessions_get_agent_json cfg session_id agent_id : prog json)
  = _s3_get_json cfg
      (_sessions_root cfg +:+ session_id +:+ "/agents/" +:+ agent_id +:+ "/agent.json").
Proof. intros H. unfold sessions_get_agent_json, _cfg. by rewrite H. Qed.

(** X15. Listing and fetching agree on keys: the id [sessions_list] gives
    for the folder of a session is the id that makes
    [sessions_get_session_json] read [session.json] in that folder, and the
    id [sessions_list_agents] gives for the folder of an agent is the id
    that makes [sessions_get_agent_json] read [agent.json] in it; the
    messages of the agent lie under the same folder. *)
Theorem listed_ids_fetch cfg session_id agent_id (w : world) :
  use_s3 cfg = true ->
  no_slash session_id = true ->
  no_slash agent_id = true ->
  let root := _sessions_root cfg in
  let session_folder := root +:+ session_id +:+ "/" in
  let agents := root +:+ session_id +:+ "/agents/" in
  let agent_folder := agents +:+ agent_id +:+ "/" in
  child_names root [session_folder] = [session_id]
  /\ calls_of (sessions_get_session_json cfg session_id) w
     = [CGet (session_folder +:+ "session.json")]
  /\ child_names agents [agent_folder] = [agent_id]
  /\ calls_of (sessions_get_agent_json cfg session_id agent_id) w
     = [CGet (agent_folder +:+ "agent.json")]
  /\ messages_base cfg session_id agent_id = agent_folder +:+ "messages/".
Proof.
  intros Hs3 Hs Ha root session_folder agents agent_folder.
  subst session_folder agent_folder agents.
  split; [apply (child_names_of_names root [session_id]); by constructor|].
  split.
  { unfold calls_of. rewrite session_json_enabled, get_json_run by done.
    cbn [snd]. fold root. by rewrite !append_assoc. }
  split; [apply (child_names_of_names _ [agent_id]); by constructor|].
  split.
  { unfold calls_of. rewrite agent_json_enabled, get_json_run by done.
    cbn [snd]. fold root. by rewrite !append_assoc. }
  unfold messages_base. fold root. by rewrite !append_assoc.
Qed.

(** ** The agent filter of [metrics_list] *)

Lemma existsb_cons (c a : ascii) (s : string) :
  existsb (Ascii.eqb c) (list_ascii_of_string (String a s))
  = Ascii.eqb c a || existsb (Ascii.eqb c) (list_ascii_of_string s).
Proof. reflexivity. Qed.

Lemma last_segment_cons (c a : ascii) (s : string) :
  Py.last_segment c (String a s)
  = if existsb (Ascii.eqb c) (list_ascii_of_string s) then Py.last_segment c s
    else if Ascii.eqb a c then s else String a s.
Proof. reflexivity. Qed.

Lemma existsb_slash_append (d b : string) :
  existsb (Ascii.eqb "/") (list_ascii_of_string (d +:+ "/" +:+ b)) = true.
Proof.
  induction d as [|a d IH]; [done|].
  rewrite append_cons, existsb_cons, IH. apply orb_true_r.
Qed.

Lemma existsb_no_slash (b : string) :
  no_slash b = true -> existsb (Ascii.eqb "/") (list_ascii_of_string b) = false.
Proof.
  induction b as [|a b IH]; [done|]. intros H. simpl in H.
  apply andb_true_iff in H as [Ha Hb].
  rewrite existsb_cons, (IH Hb), Ascii.eqb_sym.
  apply negb_true_iff in Ha. by rewrite Ha.
Qed.

Lemma last_segment_name (d b : string) :
  no_slash b = true -> Py.last_segment "/" (d +:+ "/" +:+ b) = b.
Proof.
  intros Hb. induction d as [|a d IH].
  - change (EmptyString +:+ "/" +:+ b) with (String "/" b).
    rewrite last_segment_cons, existsb_no_slash by done. reflexivity.
  - by rewrite append_cons, last_segment_cons, existsb_slash_append.
Qed.

Lemma filter_and_rest {A : Type} (f : A -> bool) (l : list A) :
  Permutation (List.filter f l ++ List.filter (fun x => negb (f x)) l) l.
Proof.
  induction l as [|x l IH]; simpl; [apply perm_nil|].
  destruct (f x); simpl.
  - by apply perm_skip.
  - apply Permutation_sym, Permutation_cons_app. by apply Permutation_sym.
Qed.

(** X16. [metrics_list] with an agent id keeps, of the page the store gave,
    the keys whose last segment starts with the id followed by an
    underscore, in the store's order: a key [dir/name] is returned exactly
    when the store returned it and [name] starts so.  Without an agent id
    the page is returned whole.  Either way the token and the truncation
    flag are the store's, also when the filter leaves fewer keys than the
    limit. *)
Theorem metrics_agent_filter cfg date_prefix agent limit token (w : world) :
  use_s3 cfg = true ->
  agent <> EmptyString ->
  let resp :=
    list_objects_v2 (objects w)
      (page_request
         (match truthy date_prefix with
          | Some d => metrics_prefix cfg +:+ d +:+ "/"
          | None => metrics_prefix cfg
          end) None limit token) in
  (exists page,
     result_of (metrics_list cfg date_prefix (Some agent) limit token) w = Ok page
     /\ kp_next_continuation_token page = resp_next_continuation_token resp
     /\ kp_is_truncated page = resp_is_truncated resp
     /\ (exists dropped, Permutation (kp_keys page ++ dropped) (resp_contents resp))
     /\ forall dir name,
          no_slash name = true ->
          (In (dir +:+ "/" +:+ name) (kp_keys page)
           <-> In (dir +:+ "/" +:+ name) (resp_contents resp)
               /\ Py.startswith name (agent +:+ "_") = true))
  /\ result_of (metrics_list cfg date_prefix None limit token) w
     = Ok (key_page_of resp (resp_contents resp)).
Proof.
  intros Hs3 Ha resp. apply String.eqb_neq in Ha.
  unfold result_of, metrics_list, _cfg. rewrite Hs3. simpl. rewrite Ha.
  split; [|done]. eexists. split; [reflexivity|]. simpl.
  split; [done|]. split; [done|]. split.
  - exists (List.filter
              (fun k => negb (Py.startswith (Py.last_segment "/" k) (agent +:+ "_")))
              (resp_contents resp)).
    apply filter_and_rest.
  - intros dir name Hn. fold resp. rewrite filter_In.
    by rewrite last_segment_name.
Qed.

End Further.

(** ** Runs on concrete buckets *)

Section Runs.

Import Demo.

#[local] Ltac by_running := vm_compute; reflexivity.

Lemma create_version_callers_witness :
  result_of (prompts_create_version config "helper" "v2" "Be brief." None) prompts_world
  = Ok (created config "helper" "v2")
  /\ result_of (prompts_create_version config "helper" "v2" "Be kind." None)
       (later (world_after
                 (prompts_create_version config "helper" "v2" "Be brief." None)
                 prompts_world) 1700000200%Z)
     = Err (already_exists "v2")
  /\ (run_all config "helper" three_requests prompts_world).1
     = [Ok (created config "helper" "v2"); Ok (created config "helper" "v3");
        Ok (created config "helper" "v4")]
  /\ versions_of (manifest_after manifest_v1 three_requests)
     = (versions_of manifest_v1 ++ List.map entry_of three_requests)%list
  /\ Forall (fun p => returned p = true) race_same.1
  /\ exists (d1 : @dict Z) vs,
       objects race_same.2 !! "system_prompts/helper/versions.json"
       = Some (text_object (json_dumps (JDict d1)) "application/json")
       /\ dict_lookup "versions" d1 = Some (JList vs)
       /\ List.length (List.filter (has_label "v2") vs) = 1%nat.
Proof.
  destruct (create_version_callers config "helper" prompts_world manifest_v1)
    as (Hsame & Hdistinct & Hrace); [reflexivity|by_running|].
  destruct (Hsame "v2" "Be brief." None "Be kind." None 1700000200%Z)
    as (H1 & _ & H2 & _); [discriminate|by_running|repeat constructor|].
  destruct (Hdistinct three_requests) as (H3 & _ & H4).
  - apply (bool_decide_unpack _). vm_compute. exact I.
  - repeat (apply Forall_cons; split;
            [split; [discriminate|split; [by_running|repeat constructor]]|]).
    apply Forall_nil. exact I.
  - repeat (apply Forall_cons; split; [split; by_running|]).
    apply Forall_nil. exact I.
  - destruct (Hrace "v2" [("Be brief.", None); ("Be kind.", None)]
                [0; 1; 0; 1; 0; 0; 1; 1; 0; 0; 1; 1]%nat)
      as (H5 & H6); [discriminate|by_running|repeat constructor|discriminate| |].
    + repeat (apply Forall_cons; split; [split; by_running|]).
      apply Forall_nil. exact I.
    + assert (H7 : Forall (fun p => returned p = true) race_same.1).
      { apply H5. intros [|[|i]] Hi; [vm_compute; lia ..|simpl in Hi; lia]. }
      destruct (H6 H7) as (_ & _ & H8).
      exact (conj H1 (conj H2 (conj H3 (conj H4 (conj H7 H8))))).
Defined.

Lemma namespace_check_witness :
  run (sessions_get_raw config "metrics/2025-01-01/helper_1.json") sessions_world
  = (Err (ValueError "s3_key must be under sessions prefix"), sessions_world, [])
  /\ calls_of (sessions_get_raw config "sessions/s1/x") sessions_world
     = [CGet "sessions/s1/x"].
Proof.
  split.
  - apply (namespace_check config "metrics/2025-01-01/helper_1.json" sessions_world);
      by_running.
  - apply (namespace_check config "sessions/s1/x" sessions_world); by_running.
Defined.

Lemma create_version_then_read_witness :
  result_of (prompts_create_version config "helper" "v2" "Be brief." (Some "shorter"))
    prompts_world
  = Ok (created config "helper" "v2")
  /\ result_of (_s3_get_text config "system_prompts/helper/v2.txt")
       (world_after
          (prompts_create_version config "helper" "v2" "Be brief." (Some "shorter"))
          prompts_world)
     = Ok "Be brief.".
Proof.
  destruct (create_version_then_read config "helper" "v2" "Be brief." (Some "shorter")
              prompts_world manifest_v1)
    as (H1 & H2 & _).
  - reflexivity.
  - discriminate.
  - by_running.
  - by_running.
  - by_running.
  - repeat constructor.
  - split; by_running.
  - exact (conj H1 H2).
Defined.

Lemma create_version_rejections_witness :
  result_of (prompts_create_version config "helper" EmptyString "Be brief." None)
    prompts_world
  = Err (ValueError "version is required")
  /\ result_of (prompts_create_version config "helper" "v1" "Be brief." None)
       prompts_world
     = Err (already_exists "v1")
  /\ result_of (prompts_create_version config "helper" "v2" "Be brief." None)
       listed_world
     = Err (already_listed "v2").
Proof.
  destruct (create_version_rejections config "helper" "v1" "Be brief." None
              prompts_world eq_refl) as (H1 & H2 & _).
  destruct (create_version_rejections config "helper" "v2" "Be brief." None
              listed_world eq_refl) as (_ & _ & H3).
  split; [exact H1|]. split.
  - apply H2; [discriminate|]. vm_compute. eauto.
  - apply (H3 ltac:(discriminate) ltac:(by_running) manifest_v1_v2
             [JDict [("version", JStr "v1"); ("note", JStr "initial");
                     ("created_at", JNum 1700000000%Z)]]
             (JDict [("version", JStr "v2"); ("note", JNull);
                     ("created_at", JNum 1700000050%Z)])
             []).
    + by_running.
    + reflexivity.
    + repeat constructor.
    + reflexivity.
Defined.

Lemma listing_in_pages_witness :
  lists_in_two_pages (sessions_list config) "sessions/" "sessions/b/" three_sessions
  /\ lists_in_two_pages (sessions_list_agents config "a") "sessions/a/agents/"
       "sessions/a/agents/b/" three_sessions.
Proof.
  split.
  - apply (listing_in_pages config "a" "sessions/b/" three_sessions);
      [reflexivity|discriminate|].
    split; [exists []|exists [], None]; by_running.
  - apply (listing_in_pages config "a" "sessions/a/agents/b/" three_sessions);
      [reflexivity|discriminate|].
    split; [exists []|exists [], None]; by_running.
Defined.

Lemma manifest_tolerance_witness :
  result_of (prompts_create_version config "helper" "v2" "Be brief." None) empty_world
  = Ok (created config "helper" "v2")
  /\ result_of (prompts_list_versions config "helper") empty_world
     = Ok (JDict [("versions", JList []); ("current", JNull)])
  /\ exists d1 : @dict Z,
       objects (world_after (prompts_create_version config "helper" "v2" "Be brief." None)
                  bare_world) !! "system_prompts/helper/versions.json"
       = Some (text_object (dumps (JDict d1)) "application/json")
       /\ dict_lookup "versions" d1 = Some (JList [new_entry "v2" None 1700000100%Z])
       /\ dict_lookup "current" d1 = Some JNull.
Proof.
  destruct (manifest_tolerance config "helper" "v2" "Be brief." None empty_world)
    as (Habsent & _ & _); [reflexivity|discriminate|by_running|].
  destruct Habsent as (H1 & _ & H2); [by_running|].
  destruct (manifest_tolerance config "helper" "v2" "Be brief." None bare_world)
    as (_ & _ & Hbare); [reflexivity|discriminate|by_running|].
  destruct (Hbare []) as (d1 & _ & H3 & H4 & H5 & _); [by_running|constructor|].
  split; [exact H1|]. split; [exact H2|].
  exists d1. split; [exact H3|]. split; [exact H4|exact H5].
Defined.

Lemma fetch_raw_witness :
  result_of (sessions_get_raw config "sessions/s1/session.json") sessions_world
  = Ok (RawJson "sessions/s1/session.json" (JDict [("a", JNum 1%Z)]))
  /\ result_of (sessions_get_raw config "sessions/s1/x") sessions_world
     = Ok (RawText "sessions/s1/x" "not json")
  /\ result_of (sessions_get_raw config "sessions/s1/none") sessions_world
     = Err (ClientError "NoSuchKey").
Proof.
  split; [|split].
  - rewrite (fetch_raw config "sessions/s1/session.json" sessions_world); by_running.
  - rewrite (fetch_raw config "sessions/s1/x" sessions_world); by_running.
  - rewrite (fetch_raw config "sessions/s1/none" sessions_world); by_running.
Defined.

Lemma disabled_backend_witness :
  run (call_tool config_local (sessions_list_tool 10 None)) sessions_world
  = (Err config_required, sessions_world, [])
  /\ run (call_tool config_local (registry_get_agent_tool "helper")) sessions_world
     = (Ok (VJsonOpt None), sessions_world, []).
Proof.
  split.
  - apply (disabled_backend config_local (sessions_list_tool 10 None) sessions_world);
      reflexivity.
  - apply (disabled_backend config_local hub_status_tool sessions_world);
      reflexivity.
Defined.

Lemma create_version_not_atomic_witness :
  result_of (prompts_create_version config "helper" "v2" "Be brief." None) listed_world
  = Err (already_listed "v2")
  /\ body_at "system_prompts/helper/v2.txt"
       (world_after (prompts_create_version config "helper" "v2" "Be brief." None)
          listed_world)
     = Some "Be brief."
  /\ body_at "system_prompts/helper/v2.txt" listed_world = None.
Proof.
  destruct (create_version_not_atomic config "helper" "v2" "Be brief." None
              listed_world manifest_v1_v2
              [JDict [("version", JStr "v1"); ("note", JStr "initial");
                      ("created_at", JNum 1700000000%Z)]]
              (JDict [("version", JStr "v2"); ("note", JNull);
                      ("created_at", JNum 1700000050%Z)])
              [])
    as (H1 & _ & _ & H2 & _).
  - reflexivity.
  - discriminate.
  - by_running.
  - by_running.
  - reflexivity.
  - repeat constructor.
  - reflexivity.
  - split; [exact H1|]. split; [|by_running].
    unfold body_at.
    change "system_prompts/helper/v2.txt" with (version_key_of config "helper" "v2").
    by rewrite H2.
Defined.

(** Two callers with distinct unused labels both return normally, and the
    manifest they leave lists [v1] and [v3] only: the entry of [v2] is lost.
    Two callers with the same label both return normally. *)
Lemma concurrent_callers_lose_an_entry :
  race_distinct.1
  = [Ret (created config "helper" "v2"); Ret (created config "helper" "v3")]
  /\ (body_at "system_prompts/helper/versions.json" race_distinct.2 ≫= loads)
     = Some (JDict [("versions",
                     JList [JDict [("version", JStr "v1"); ("note", JStr "initial");
                                   ("created_at", JNum 1700000000%Z)];
                            new_entry "v3" None 1700000100%Z]);
                    ("current", JStr "v1")])
  /\ race_same.1
     = [Ret (created config "helper" "v2"); Ret (created config "helper" "v2")].
Proof. repeat split; by_running. Qed.

(** The key [sessions/../secret] starts with the sessions root, so it is
    read from the store. *)
Lemma dotdot_key_is_accepted :
  _sessions_root config = "sessions/"
  /\ run (sessions_get_raw config "sessions/../secret") sessions_world
     = (Ok (RawText "sessions/../secret" "top secret"), sessions_world,
        [CGet "sessions/../secret"]).
Proof. split; by_running. Qed.

(** An object under the sessions root whose bytes are not UTF-8 makes
    [sessions_get_raw] raise. *)
Lemma binary_payload_raises :
  Py.startswith "sessions/s1/blob" (_sessions_root config) = true
  /\ body_at "sessions/s1/blob" sessions_world = Some (String (ascii_of_nat 255) EmptyString)
  /\ result_of (sessions_get_raw config "sessions/s1/blob") sessions_world
     = Err UnicodeDecodeError.
Proof. repeat split; by_running. Qed.

(** With the backend disabled, [registry_list_agents] returns what the
    registry returns. *)
Lemma registry_tools_skip_the_check :
  use_s3 config_local = false
  /\ run (call_tool config_local (registry_list_agents_tool None)) empty_world
     = (Ok (VJsonList []), empty_world, []).
Proof. split; by_running. Qed.

Lemma label_is_used_up_witness :
  result_of (prompts_create_version config "helper" "v2" "Be brief." None) broken_world
  = Err JSONDecodeError
  /\ result_of (prompts_create_version config "helper" "v2" "Be kind." None)
       (later (world_after
                 (prompts_create_version config "helper" "v2" "Be brief." None)
                 broken_world) 1700000200%Z)
     = Err (already_exists "v2").
Proof.
  destruct (label_is_used_up config "helper" "v2" "Be brief." None "Be kind." None
              1700000200%Z broken_world) as (_ & H & _).
  - reflexivity.
  - discriminate.
  - by_running.
  - split; [by_running|exact H].
Defined.

Lemma unusable_manifest_witness :
  result_of (prompts_create_version config "helper" "v2" "Be brief." None) broken_world
  = Err JSONDecodeError
  /\ result_of (prompts_create_version config "helper" "v2" "Be brief." None)
       list_manifest_world
     = Err TypeError
  /\ body_at "system_prompts/helper/v2.txt"
       (world_after (prompts_create_version config "helper" "v2" "Be brief." None)
          list_manifest_world)
     = Some "Be brief.".
Proof.
  destruct (unusable_manifest config "helper" "v2" "Be brief." None broken_world
              {| body := "not json"; content_type := "application/json" |})
    as (_ & H1 & _); [reflexivity|discriminate|by_running|by_running|].
  destruct (unusable_manifest config "helper" "v2" "Be brief." None list_manifest_world
              {| body := "[]"; content_type := "application/json" |})
    as (_ & _ & H2 & _ & H3); [reflexivity|discriminate|by_running|by_running|].
  split; [apply (H1 "not json"); by_running|].
  split; [apply (H2 "[]" (JList [])); by_running|].
  rewrite (H3 TypeError); [by_running|].
  apply (H2 "[]" (JList [])); by_running.
Defined.

Lemma put_then_get_witness :
  result_of (_s3_get_text config "notes/a.txt")
    (world_after (_s3_put_text config "notes/a.txt" "hello" "text/plain") empty_world)
  = Ok "hello".
Proof.
  apply (put_then_get config "notes/a.txt" "hello" "text/plain" empty_world).
  by_running.
Defined.

Lemma reading_tools_never_write_witness :
  world_after (call_tool config (sessions_get_raw_tool "sessions/s1/x")) sessions_world
  = sessions_world.
Proof.
  apply (reading_tools_never_write config (sessions_get_raw_tool "sessions/s1/x")
           sessions_world).
  reflexivity.
Defined.

Lemma listing_requests_witness :
  calls_of (sessions_list config 5000 None) three_sessions
  = [CList (page_request "sessions/" (Some "/") 5000 None)]
  /\ Py.clamp_limit 5000 = 1000%Z.
Proof.
  destruct (listing_requests config "a" "a" None None 5000 None three_sessions)
    as (H1 & _ & _ & _ & _ & _ & _ & H2); [reflexivity|].
  split; [exact H1|]. apply H2. lia.
Defined.

Lemma message_key_confined_witness :
  exists key,
    calls_of (sessions_get_message_json config "s1" "../../../secret" "a") messages_world
    = [CGet key]
    /\ Py.startswith key "sessions/s1/agents/a/messages/" = true.
Proof.
  destruct (message_key_confined config "s1" "../../../secret" "a" messages_world)
    as (key & H1 & H2 & _); [reflexivity|].
  exists key. split; [exact H1|exact H2].
Defined.

Lemma message_key_forms_witness :
  run (sessions_get_message_json config "s1"
         "sessions/s1/agents/a/messages/message_0.json" "a") messages_world
  = run (sessions_get_message_json config "s1" "message_0.json" "a") messages_world
  /\ run (sessions_get_message_json config "s1" "/message_0.json" "a") messages_world
     = run (sessions_get_message_json config "s1" "message_0.json" "a") messages_world.
Proof.
  destruct (message_key_forms config "s1" "a" "message_0.json" messages_world)
    as [H1 H2]; [by_running ..|].
  split; [exact H1|]. apply H2. by_running.
Defined.

Lemma strict_and_raw_fetch_witness :
  result_of (sessions_get_session_json config "s1") messages_world
  = Ok (JDict [("a", JNum 1%Z)])
  /\ result_of (sessions_get_agent_json config "s1" "a") messages_world
     = Err JSONDecodeError.
Proof.
  destruct (strict_and_raw_fetch config "s1" "a" messages_world) as [H1 H2];
    [reflexivity|].
  rewrite H1, H2. split; by_running.
Defined.

Lemma messages_in_order_witness :
  exists page,
    result_of (sessions_list_messages config "s1" "a" 10 None) messages_world = Ok page
    /\ Sorted (fun a b => String.leb a b = true) (kp_keys page)
    /\ List.length (kp_keys page) = 3%nat.
Proof.
  destruct (messages_in_order config "s1" "a" 10 None messages_world)
    as (page & H1 & H2 & H3 & _); [reflexivity|].
  exists page. split; [exact H1|]. split; [exact H2|].
  rewrite (Permutation_length H3). by_running.
Defined.

Lemma listed_ids_are_names_witness :
  result_of (sessions_list config 10 None) three_sessions
  = Ok {| ip_ids := ["a"; "b"; "c"];
          ip_prefixes := ["sessions/a/"; "sessions/b/"; "sessions/c/"];
          ip_next_continuation_token := None;
          ip_is_truncated := false |}.
Proof.
  apply (listed_ids_are_names config "a" 10 None ["a"; "b"; "c"] [] None false
           three_sessions).
  - reflexivity.
  - repeat constructor.
  - by_running.
Defined.

Lemma listed_ids_fetch_witness :
  child_names "sessions/" ["sessions/s1/"] = ["s1"]
  /\ calls_of (sessions_get_session_json config "s1") messages_world
     = [CGet "sessions/s1/session.json"].
Proof.
  destruct (listed_ids_fetch config "s1" "a" messages_world)
    as (H1 & H2 & _); [reflexivity|reflexivity|reflexivity|].
  split; [exact H1|exact H2].
Defined.

Lemma metrics_agent_filter_witness :
  result_of (metrics_list config (Some "2025-01-01") None 10 None) messages_world
  = Ok {| kp_keys := ["metrics/2025-01-01/helper_1.json";
                      "metrics/2025-01-01/helper_2.json";
                      "metrics/2025-01-01/other_1.json"];
          kp_next_continuation_token := None;
          kp_is_truncated := false |}
  /\ exists page,
       result_of (metrics_list config (Some "2025-01-01") (Some "helper") 10 None)
         messages_world = Ok page
       /\ (In "metrics/2025-01-01/helper_2.json" (kp_keys page)
           <-> In "metrics/2025-01-01/helper_2.json"
                 ["metrics/2025-01-01/helper_1.json";
                  "metrics/2025-01-01/helper_2.json";
                  "metrics/2025-01-01/other_1.json"]
               /\ Py.startswith "helper_2.json" "helper_" = true).
Proof.
  destruct (metrics_agent_filter config (Some "2025-01-01") "helper" 10 None
              messages_world) as [(page & H1 & _ & _ & _ & H2) H3];
    [reflexivity|discriminate|].
  split; [rewrite H3; by_running|].
  exists page. split; [exact H1|].
  apply (H2 "metrics/2025-01-01" "helper_2.json"). reflexivity.
Defined.

Lemma manifest_stays_consistent_witness :
  manifest_consistent config "helper"
    (world_after (prompts_create_version config "helper" "v2" "Be brief." None)
       prompts_world).
Proof.
  apply (manifest_stays_consistent config "helper" "v2" "Be brief." None prompts_world).
  - exists manifest_v1. split; [by_running|].
    apply Forall_cons. split; [|by apply Forall_nil].
    intros v H. injection H as <-. vm_compute. eauto.
  - intros d0 H. vm_compute in H. injection H as <-. split; by_running.
Defined.

End Runs.
